(** * QInvest risk score: scoring and pricing engine of [src/main.py]

    The development embeds the two engine functions of the service,
    [calculate_risk_score] and [calcular_taxa_juros_anual], and the three
    request handlers that call them, and proves the properties the
    specification lists for them.

    Numbers.  Python [int] is [Z].  Python [float] is embedded twice:
    - as an exact rational ([Q]) in the main development, where the
      universally quantified properties are proved; equality of scores
      and rates is [Qeq] ([==]);
    - as an IEEE binary64 value (the kernel's primitive floats) in
      [Module Binary64], where the specification's literal scenarios are
      re-evaluated with the very rounding of the interpreter.

    Errors.  The only operation of the engine that can raise is the true
    division [/]; it is embedded as a partial operation, and the engine
    runs in the error monad [result].

    The later sections embed the rest of the service (the mocked Qi Tech
    lookups, their handlers and the demonstration, in [Module QiTech]) and
    the repository's own code in [models/risk_score_model.py]
    ([Module Modelo]), with further properties of both and of the
    engine. *)

From Stdlib Require Import ZArith QArith Qround Qabs Lia Lqa Bool List String.
From Stdlib Require Import Floats.
Import ListNotations.

Set Implicit Arguments.
Set Warnings "-inexact-float".
Local Open Scope Z_scope.
Local Open Scope Q_scope.

(* ================================================================== *)
(** ** Python values and operators *)

Module Py.

(** Exceptions the arithmetic of the engine can raise. *)
Inductive exn : Set :=
| ZeroDivisionError.

Definition result (A : Type) : Type := (exn + A)%type.

Definition ret {A : Type} (a : A) : result A := inr a.
Definition raise {A : Type} (e : exn) : result A := inl e.
Definition bind {A B : Type} (c : result A) (k : A -> result B) : result B :=
  match c with
  | inl e => inl e
  | inr a => k a
  end.

(** The comparisons [x < y] and [x > y] on floats, as booleans. *)
Definition ltb (x y : Q) : bool := (Qnum x * QDen y <? Qnum y * QDen x)%Z.
Definition gtb (x y : Q) : bool := ltb y x.

(** [a / b]: raises on a zero divisor. *)
Definition truediv (a b : Q) : result Q :=
  if Qeq_bool b 0 then raise ZeroDivisionError else ret (a / b).

(** The two-argument builtins [min(a, b)] and [max(a, b)]: the first
    argument is kept unless the second is strictly smaller (larger). *)
Definition min (a b : Q) : Q := if ltb b a then b else a.
Definition max (a b : Q) : Q := if gtb b a then b else a.

(** Round half to even, to an integer. *)
Definition round_half_even (x : Q) : Z :=
  let f := Qfloor x in
  let r := x - inject_Z f in
  if ltb r (1 # 2) then f
  else if ltb (1 # 2) r then (f + 1)%Z
  else if Z.even f then f else (f + 1)%Z.

(** [round(x, ndigits)] for a non-negative [ndigits]. *)
Definition round (x : Q) (ndigits : nat) : Q :=
  let scale := inject_Z (10 ^ Z.of_nat ndigits) in
  inject_Z (round_half_even (x * scale)) / scale.

End Py.

Declare Scope py_scope.
Delimit Scope py_scope with py.
Notation "x <- c ;; k" := (Py.bind c (fun x => k))
  (at level 61, c at next level, right associativity) : py_scope.
Infix "<?" := Py.ltb (at level 70, no associativity) : py_scope.
Infix ">?" := Py.gtb (at level 70, no associativity) : py_scope.
Local Open Scope py_scope.

(* ================================================================== *)
(** ** Request and response models

    The pydantic models of the service.  [calculate_risk_score] takes the
    ten fields of [RiskScoreInput] as ten parameters of the same names, in
    the same order, and every caller passes them field by field: the
    embedding passes the record.  [FullScoreInput] repeats the ten fields
    and adds the term and the amount: here it holds the record and the
    two.  The field [risco_final] of [InterestRateInput] is written
    [risco_final_in], the name being that of a local variable of
    [calculate_risk_score] below. *)

Record RiskScoreInput : Set := {
  idade_empresa : Q;
  cpf_score : Z;
  divida_total : Q;
  faturamento_anual : Q;
  saldo_medio_diario : Q;
  faturamento_medio_mensal : Q;
  estresse_caixa_dias : Z;
  valor_maior_cliente : Q;
  faturamento_total_periodo : Q;
  cnpj_score_api : Z
}.

Record InterestRateInput : Set := {
  risco_final_in : Q;
  prazo_meses : Z;
  valor_solicitado : Q
}.

Record FullScoreInput : Set := {
  dados_risco : RiskScoreInput;
  full_prazo_meses : Z;
  full_valor_solicitado : Q
}.

(** The classification strings ['A'], ['B'], ['C'], ['D'] and
    ['automatically_reproved']. *)
Inductive Classificacao : Set :=
| A | B | C | D | automatically_reproved.


Record InterestRateOutput : Set := {
  taxa_juros_anual : Q
}.

Record FullScoreOutput : Set := {
  full_score : Q;
  full_classificacao : Classificacao;
  full_taxa_juros_anual : Q
}.

(* ================================================================== *)
(** ** [calculate_risk_score] *)

(** *** 1. Normalisation: one definition per ladder, named after the
    local variable the ladder assigns. *)

Definition risco_idade (idade_empresa : Q) : Z :=
  if idade_empresa <? 2 then 400
  else if idade_empresa <? 5 then 600
  else 1000.

Definition risco_cpf (cpf_score : Z) : Z :=
  if (cpf_score <? 400)%Z then 100
  else if (cpf_score <? 700)%Z then 500
  else if (cpf_score <? 900)%Z then 700
  else 1000.

Definition risco_endividamento (divida_total faturamento_anual : Q)
  : Py.result Z :=
  if faturamento_anual >? 0 then
    indice_endividamento <- Py.truediv divida_total faturamento_anual ;;
    Py.ret ((if indice_endividamento >? 1.0 then 100
             else if indice_endividamento >? 0.6 then 300
             else if indice_endividamento >? 0.3 then 700
             else 1000) : Z)
  else Py.ret 0%Z.

Definition risco_liquidez (saldo_medio_diario faturamento_medio_mensal : Q)
  : Py.result Z :=
  if faturamento_medio_mensal >? 0 then
    indice_liquidez <- Py.truediv saldo_medio_diario faturamento_medio_mensal ;;
    Py.ret ((if indice_liquidez <? 0.1 then 100
             else if indice_liquidez <? 0.4 then 500
             else 1000) : Z)
  else Py.ret 0%Z.

Definition risco_estresse (estresse_caixa_dias : Z) : Z :=
  if (estresse_caixa_dias >? 10)%Z then 0
  else if (estresse_caixa_dias >? 5)%Z then 300
  else if (estresse_caixa_dias >? 0)%Z then 700
  else 1000.

Definition risco_concentracao (valor_maior_cliente faturamento_total_periodo : Q)
  : Py.result Z :=
  if faturamento_total_periodo >? 0 then
    indice_concentracao <- Py.truediv valor_maior_cliente faturamento_total_periodo ;;
    Py.ret ((if indice_concentracao >? 0.6 then 100
             else if indice_concentracao >? 0.3 then 500
             else if indice_concentracao >? 0.2 then 900
             else 1000) : Z)
  else Py.ret 0%Z.

(** The six sub-scores of one request, in the order the code computes
    them. *)
Record SubScores : Set := {
  sub_idade : Z;
  sub_cpf : Z;
  sub_endividamento : Z;
  sub_liquidez : Z;
  sub_estresse : Z;
  sub_concentracao : Z
}.

(** The first stage of the body of [calculate_risk_score]: the six
    ladders, run in the order of the code. *)
Definition normalizar (x : RiskScoreInput) : Py.result SubScores :=
  let r_idade := risco_idade (idade_empresa x) in
  let r_cpf := risco_cpf (cpf_score x) in
  r_endividamento <- risco_endividamento (divida_total x) (faturamento_anual x) ;;
  r_liquidez <- risco_liquidez (saldo_medio_diario x) (faturamento_medio_mensal x) ;;
  let r_estresse := risco_estresse (estresse_caixa_dias x) in
  r_concentracao <- risco_concentracao (valor_maior_cliente x)
                                       (faturamento_total_periodo x) ;;
  Py.ret {| sub_idade := r_idade; sub_cpf := r_cpf;
            sub_endividamento := r_endividamento; sub_liquidez := r_liquidez;
            sub_estresse := r_estresse; sub_concentracao := r_concentracao |}.

(** *** 2. Weights

    The dict [pesos] is built afresh by every call and only read, each
    time at a key it holds: its seven entries are seven constants. *)

Module pesos.
Definition idade : Q := 0.05.
Definition cpf_score : Q := 0.05.
Definition endividamento : Q := 0.15.
Definition liquidez : Q := 0.10.
Definition estresse_caixa : Q := 0.10.
Definition concentracao : Q := 0.05.
Definition score_biro : Q := 0.5.
End pesos.

(** The weighted sum, before clamping, with the terms in the order of
    the code; an [int] sub-score is converted by [inject_Z]. *)
Definition soma_ponderada (s : SubScores) (cnpj_score_api : Z) : Q :=
  inject_Z (sub_endividamento s) * pesos.endividamento
  + inject_Z (sub_liquidez s) * pesos.liquidez
  + inject_Z (sub_estresse s) * pesos.estresse_caixa
  + inject_Z (sub_concentracao s) * pesos.concentracao
  + inject_Z (sub_idade s) * pesos.idade
  + inject_Z (sub_cpf s) * pesos.cpf_score
  + inject_Z cnpj_score_api * pesos.score_biro.

(** The same sum counted in hundredths: an integer, since every weight
    is a whole number of hundredths. *)
Definition centesimos (s : SubScores) (cnpj_score_api : Z) : Z :=
  (15 * sub_endividamento s + 10 * sub_liquidez s + 10 * sub_estresse s
   + 5 * sub_concentracao s + 5 * sub_idade s + 5 * sub_cpf s
   + 50 * cnpj_score_api)%Z.

(** [risco_final = max(0, min(1000, risco_final))]. *)
Definition risco_final (s : SubScores) (cnpj_score_api : Z) : Q :=
  Py.max 0 (Py.min 1000 (soma_ponderada s cnpj_score_api)).

(** *** 3. Classification *)

Definition classificar (risco_final : Q) : Classificacao :=
  if risco_final >? 800 then A
  else if risco_final >? 600 then B
  else if risco_final >? 400 then C
  else if risco_final >? 200 then D
  else automatically_reproved.

(** The whole function: the pair of the score rounded to two decimals
    and of the grade of the score before rounding. *)
Definition calculate_risk_score (x : RiskScoreInput)
  : Py.result (Q * Classificacao) :=
  s <- normalizar x ;;
  let rf := risco_final s (cnpj_score_api x) in
  Py.ret (Py.round rf 2, classificar rf).

(* ================================================================== *)
(** ** [calcular_taxa_juros_anual]

    One definition per local variable of the function. *)

Definition TAXA_BASE : Q := 0.12.

Definition premio_risco (risco_final : Q) : Q :=
  (- (risco_final - 1000) / 1000) * 0.25.

Definition premio_prazo (prazo_meses : Z) : Q :=
  if (prazo_meses <=? 6)%Z then 0.00
  else if (prazo_meses <=? 12)%Z then 0.02
  else if (prazo_meses <=? 18)%Z then 0.04
  else 0.06.

Definition premio_valor (valor_solicitado : Q) : Q :=
  if valor_solicitado <? 50000 then 0.00
  else if valor_solicitado <? 150000 then 0.01
  else if valor_solicitado <? 300000 then 0.025
  else 0.05.

Definition calcular_taxa_juros_anual
  (risco_final : Q) (prazo_meses : Z) (valor_solicitado : Q) : Q :=
  TAXA_BASE + (premio_risco risco_final + premio_prazo prazo_meses
               + premio_valor valor_solicitado).

(** The literal request of the test-suite. *)
Definition TEST_RISK_DATA : RiskScoreInput :=
  {| idade_empresa := 3.5; cpf_score := 750; divida_total := 100000;
     faturamento_anual := 500000; saldo_medio_diario := 15000;
     faturamento_medio_mensal := 41667; estresse_caixa_dias := 2;
     valor_maior_cliente := 80000; faturamento_total_periodo := 300000;
     cnpj_score_api := 800 |}.

(** The declared input domain of the data model: non-negative numerics
    and a bureau score between 0 and 1000. *)
Definition valid (x : RiskScoreInput) : Prop :=
  0 <= idade_empresa x /\ (0 <= cpf_score x)%Z /\ 0 <= divida_total x
  /\ 0 <= faturamento_anual x /\ 0 <= saldo_medio_diario x
  /\ 0 <= faturamento_medio_mensal x /\ (0 <= estresse_caixa_dias x)%Z
  /\ 0 <= valor_maior_cliente x /\ 0 <= faturamento_total_periodo x
  /\ (0 <= cnpj_score_api x <= 1000)%Z.


(** A request whose weighted sum is exactly 800
    (150 + 100 + 100 + 50 + 20 + 5 + 375). *)
Definition EXEMPLO_800 : RiskScoreInput :=
  {| idade_empresa := 1; cpf_score := 300; divida_total := 0;
     faturamento_anual := 1; saldo_medio_diario := 1;
     faturamento_medio_mensal := 1; estresse_caixa_dias := 0;
     valor_maior_cliente := 0; faturamento_total_periodo := 1;
     cnpj_score_api := 750 |}.

(** The values a ladder can give: a whole number of hundreds between 0
    and 1000. *)
Definition is_sub_score (v : Z) : Prop :=
  exists j : Z, v = (100 * j)%Z /\ (0 <= j <= 10)%Z.


(* ================================================================== *)
(** ** Request handlers *)

(** What a Python function can reach besides its arguments: the state of
    the module [random] (the raw draws still to come and how many were
    taken) and the wall clock read by [datetime.now()]. *)
Record World : Type := {
  draws : nat -> Z;
  taken : nat;
  clock : Z
}.

Definition IO (A : Type) : Type := World -> A * World.

Definition io_ret {A : Type} (a : A) : IO A := fun w => (a, w).
Definition io_bind {A B : Type} (c : IO A) (k : A -> IO B) : IO B :=
  fun w => let (a, w') := c w in k a w'.

(** The state of the world whose every raw draw is [draw]. *)
Definition mundo (draw : Z) : World :=
  {| draws := fun _ => draw; taken := 0; clock := 0 |}.

(** [random.randint(a, b)]: the next raw draw, reduced to [a..b]. *)
Definition randint (a b : Z) : IO Z :=
  fun w => ((a + draws w (taken w) mod (b - a + 1))%Z,
            {| draws := draws w; taken := S (taken w); clock := clock w |}).

(** A handler answers with its response model, or raises
    [HTTPException(status_code=...)]. *)
Inductive Response (A : Type) : Type :=
| OK (body : A)
| HTTPException (status_code : Z).
Arguments OK {A} body.
Arguments HTTPException {A} status_code.

(** [try: ... except Exception: raise HTTPException(status_code=400)] *)
Definition try_400 {A B : Type} (c : Py.result A) (k : A -> B) : Response B :=
  match c with
  | inr a => OK (k a)
  | inl _ => HTTPException 400
  end.


Definition calculate_interest_rate_endpoint (data : InterestRateInput)
  : IO (Response InterestRateOutput) :=
  io_ret (try_400
            (Py.ret (calcular_taxa_juros_anual (risco_final_in data)
                       (prazo_meses data) (valor_solicitado data)))
            (fun taxa_juros => {| taxa_juros_anual := Py.round taxa_juros 4 |})).

Definition calculate_full_score_endpoint (data : FullScoreInput)
  : IO (Response FullScoreOutput) :=
  io_ret (try_400
            (Py.bind (calculate_risk_score (dados_risco data))
               (fun '(score, classificacao) =>
                  let taxa_juros :=
                    calcular_taxa_juros_anual score (full_prazo_meses data)
                      (full_valor_solicitado data) in
                  Py.ret (score, classificacao, taxa_juros)))
            (fun '(score, classificacao, taxa_juros) =>
               {| full_score := score; full_classificacao := classificacao;
                  full_taxa_juros_anual := Py.round taxa_juros 4 |})).

(** The mocked bureau lookup [consultar_score_qi_tech_empresa], reduced
    to the [score] field of its answer: a known CNPJ is answered from the
    table [empresas_mock], any other one by [random.randint(300, 900)]. *)
Definition empresas_mock : list (string * Z) :=
  [("12345678000123"%string, 750%Z); ("98765432000198"%string, 450%Z)].

Fixpoint lookup (key : string) (d : list (string * Z)) : option Z :=
  match d with
  | [] => None
  | (k, v) :: d' => if String.eqb key k then Some v else lookup key d'
  end.

Definition consultar_score_qi_tech_empresa (cnpj : string) : IO Z :=
  match lookup cnpj empresas_mock with
  | Some score => io_ret score
  | None => randint 300 900
  end.


(** The request of the test-suite's full-score test. *)
Definition TEST_FULL_DATA : FullScoreInput :=
  {| dados_risco := TEST_RISK_DATA; full_prazo_meses := 12;
     full_valor_solicitado := 100000 |}.

(* ================================================================== *)
(** ** The engine in IEEE binary64

    The same two functions with every [float] a binary64 value and every
    operation rounded as the interpreter rounds it.  An [int] operand of a
    mixed operation is converted first ([of_int], exact below 2^53). *)

Module Binary64.

Local Open Scope float_scope.

Definition of_int (n : Z) : float :=
  if (n <? 0)%Z then - of_uint63 (Uint63.of_Z (- n))
  else of_uint63 (Uint63.of_Z n).

Definition truediv (a b : float) : Py.result float :=
  if b =? 0 then Py.raise Py.ZeroDivisionError else Py.ret (a / b).

(** The builtins [min] and [max] on two arguments. *)
Definition min (a b : float) : float := if b <? a then b else a.
Definition max (a b : float) : float := if a <? b then b else a.

(** The exact value of a finite binary64 number. *)
Definition to_Q (x : float) : option Q :=
  match Prim2SF x with
  | S754_zero _ => Some 0%Q
  | S754_finite s m e =>
      Some ((if s then inject_Z (Z.neg m) else inject_Z (Z.pos m))
            * Qpower 2 e)%Q
  | S754_infinity _ | S754_nan => None
  end.

(** [round(x, ndigits)]: the exact value of [x] is rounded half to even
    at [ndigits] decimals, and the decimal obtained is read back as the
    nearest binary64 number; infinities and NaN are returned as they
    are. *)
Definition round (x : float) (ndigits : nat) : float :=
  match to_Q x with
  | Some q =>
      let scale := (10 ^ Z.of_nat ndigits)%Z in
      of_int (Py.round_half_even (q * inject_Z scale)%Q) / of_int scale
  | None => x
  end.

Record RiskScoreInput : Set := {
  idade_empresa : float;
  cpf_score : Z;
  divida_total : float;
  faturamento_anual : float;
  saldo_medio_diario : float;
  faturamento_medio_mensal : float;
  estresse_caixa_dias : Z;
  valor_maior_cliente : float;
  faturamento_total_periodo : float;
  cnpj_score_api : Z
}.

Definition risco_idade (idade_empresa : float) : Z :=
  if idade_empresa <? 2 then 400
  else if idade_empresa <? 5 then 600
  else 1000.

Definition risco_endividamento (divida_total faturamento_anual : float)
  : Py.result Z :=
  if 0 <? faturamento_anual then
    indice_endividamento <- truediv divida_total faturamento_anual ;;
    Py.ret ((if 1.0 <? indice_endividamento then 100
             else if 0.6 <? indice_endividamento then 300
             else if 0.3 <? indice_endividamento then 700
             else 1000) : Z)
  else Py.ret 0%Z.

Definition risco_liquidez (saldo_medio_diario faturamento_medio_mensal : float)
  : Py.result Z :=
  if 0 <? faturamento_medio_mensal then
    indice_liquidez <- truediv saldo_medio_diario faturamento_medio_mensal ;;
    Py.ret ((if indice_liquidez <? 0.1 then 100
             else if indice_liquidez <? 0.4 then 500
             else 1000) : Z)
  else Py.ret 0%Z.

Definition risco_concentracao
  (valor_maior_cliente faturamento_total_periodo : float) : Py.result Z :=
  if 0 <? faturamento_total_periodo then
    indice_concentracao <- truediv valor_maior_cliente faturamento_total_periodo ;;
    Py.ret ((if 0.6 <? indice_concentracao then 100
             else if 0.3 <? indice_concentracao then 500
             else if 0.2 <? indice_concentracao then 900
             else 1000) : Z)
  else Py.ret 0%Z.

Definition classificar (risco_final : float) : Classificacao :=
  if 800 <? risco_final then A
  else if 600 <? risco_final then B
  else if 400 <? risco_final then C
  else if 200 <? risco_final then D
  else automatically_reproved.

Definition calculate_risk_score (x : RiskScoreInput)
  : Py.result (float * Classificacao) :=
  let r_idade := risco_idade (idade_empresa x) in
  let r_cpf := risco_cpf (cpf_score x) in
  r_endividamento <- risco_endividamento (divida_total x) (faturamento_anual x) ;;
  r_liquidez <- risco_liquidez (saldo_medio_diario x)
                               (faturamento_medio_mensal x) ;;
  let r_estresse := risco_estresse (estresse_caixa_dias x) in
  r_concentracao <- risco_concentracao (valor_maior_cliente x)
                                       (faturamento_total_periodo x) ;;
  let risco_final :=
    of_int r_endividamento * 0.15 + of_int r_liquidez * 0.10
    + of_int r_estresse * 0.10 + of_int r_concentracao * 0.05
    + of_int r_idade * 0.05 + of_int r_cpf * 0.05
    + of_int (cnpj_score_api x) * 0.5 in
  let risco_final := max 0 (min 1000 risco_final) in
  Py.ret (round risco_final 2, classificar risco_final).

Definition calcular_taxa_juros_anual
  (risco_final : float) (prazo_meses : Z) (valor_solicitado : float) : float :=
  let TAXA_BASE := 0.12 in
  let premio_risco := (- (risco_final - 1000) / 1000) * 0.25 in
  let premio_prazo :=
    if (prazo_meses <=? 6)%Z then 0.00
    else if (prazo_meses <=? 12)%Z then 0.02
    else if (prazo_meses <=? 18)%Z then 0.04
    else 0.06 in
  let premio_valor :=
    if valor_solicitado <? 50000 then 0.00
    else if valor_solicitado <? 150000 then 0.01
    else if valor_solicitado <? 300000 then 0.025
    else 0.05 in
  TAXA_BASE + (premio_risco + premio_prazo + premio_valor).

Definition TEST_RISK_DATA : RiskScoreInput :=
  {| idade_empresa := 3.5; cpf_score := 750; divida_total := 100000;
     faturamento_anual := 500000; saldo_medio_diario := 15000;
     faturamento_medio_mensal := 41667; estresse_caixa_dias := 2;
     valor_maior_cliente := 80000; faturamento_total_periodo := 300000;
     cnpj_score_api := 800 |}.

End Binary64.

(* ================================================================== *)
(** ** Orders and transformations of requests *)




(** The worst valid request: every sub-score and the bureau score at
    their least. *)
Definition PIOR_CASO : RiskScoreInput :=
  {| idade_empresa := 0; cpf_score := 0; divida_total := 0;
     faturamento_anual := 0; saldo_medio_diario := 0;
     faturamento_medio_mensal := 0; estresse_caixa_dias := 11;
     valor_maior_cliente := 0; faturamento_total_periodo := 0;
     cnpj_score_api := 0 |}.


(* ================================================================== *)
(** ** The mocked Qi Tech lookups, their handlers and the demonstration

    The remaining functions of [src/main.py].  The raw draws of the world
    are the outcomes of the successive calls into the module [random]; a
    time stamp [datetime.now().isoformat()] is the reading of the clock,
    kept as a number.  A character of a [string] is one of its elements:
    [String.length] is [len] on ASCII text. *)

Module QiTech.

Definition advance (w : World) : World :=
  {| draws := draws w; taken := S (taken w); clock := clock w |}.

(** [random.choice(seq)] on the non-empty sequence [x :: xs]. *)
Definition choice {A : Type} (x : A) (xs : list A) : IO A :=
  fun w =>
    (nth (Z.to_nat (draws w (taken w) mod Z.of_nat (List.length (x :: xs))))
         (x :: xs) x,
     advance w).

(** [random.random()]: 53 random bits as a fraction, in [0, 1). *)
Definition random : IO Q :=
  fun w => (inject_Z (draws w (taken w) mod 2 ^ 53) / inject_Z (2 ^ 53),
            advance w).

(** [random.uniform(a, b)] is [a + (b - a) * random()]. *)
Definition uniform (a b : Q) : IO Q :=
  io_bind random (fun u => io_ret (a + (b - a) * u)).

(** [datetime.now().isoformat()] *)
Definition now_isoformat : IO Z := fun w => (clock w, w).

(** [key in d] followed by [d[key]], on a dict literal. *)
Fixpoint procurar {V : Type} (key : string) (d : list (string * V))
  : option V :=
  match d with
  | [] => None
  | (k, v) :: d' => if String.eqb key k then Some v else procurar key d'
  end.

(** The dict [empresa_data]. *)
Record EmpresaData : Set := {
  e_score : Z;
  e_faixa : string;
  e_prob_inadimplencia : Q;
  e_setor : string;
  e_porte : string;
  e_tempo_atuacao : Z
}.

(** The dict [pessoa_data]. *)
Record PessoaData : Set := {
  p_score : Z;
  p_faixa : string;
  p_prob_inadimplencia : Q;
  p_idade : Z;
  p_renda_mensal : Z;
  p_estado_civil : string
}.

(** The dict [analise_completa]: the document under its key (["cnpj"] or
    ["cpf"]), the data under theirs (["dados_empresa"] or
    ["dados_pessoa"]), the source and the time stamp. *)
Record AnaliseCompleta (D : Type) : Type := {
  documento : string;
  dados : D;
  fonte : string;
  timestamp : Z
}.

Record QiTechScoreResponse (D : Type) : Type := {
  score : Z;
  faixa_score : string;
  probabilidade_inadimplencia : Q;
  analise_completa : AnaliseCompleta D;
  data_consulta : Z
}.

Definition empresas_mock : list (string * EmpresaData) :=
  [("12345678000123"%string,
    {| e_score := 750; e_faixa := "B"; e_prob_inadimplencia := 0.15;
       e_setor := "Comércio"; e_porte := "Médio"; e_tempo_atuacao := 8 |});
   ("98765432000198"%string,
    {| e_score := 450; e_faixa := "D"; e_prob_inadimplencia := 0.35;
       e_setor := "Serviços"; e_porte := "Pequeno"; e_tempo_atuacao := 3 |})].

Definition pessoas_mock : list (string * PessoaData) :=
  [("12345678901"%string,
    {| p_score := 820; p_faixa := "A"; p_prob_inadimplencia := 0.08;
       p_idade := 35; p_renda_mensal := 8500; p_estado_civil := "Casado" |});
   ("98765432109"%string,
    {| p_score := 380; p_faixa := "D"; p_prob_inadimplencia := 0.42;
       p_idade := 25; p_renda_mensal := 2200;
       p_estado_civil := "Solteiro" |})].

(** The random [empresa_data], its six entries drawn in the order of the
    dict literal. *)
Definition empresa_aleatoria : IO EmpresaData :=
  io_bind (randint 300 900) (fun score =>
  io_bind (choice "A"%string ["B"; "C"; "D"]%string) (fun faixa =>
  io_bind (uniform 0.05 0.40) (fun u =>
  io_bind (choice "Comércio"%string ["Serviços"; "Indústria"]%string)
    (fun setor =>
  io_bind (choice "Micro"%string ["Pequeno"; "Médio"; "Grande"]%string)
    (fun porte =>
  io_bind (randint 1 20) (fun tempo_atuacao =>
  io_ret {| e_score := score; e_faixa := faixa;
            e_prob_inadimplencia := Py.round u 3; e_setor := setor;
            e_porte := porte; e_tempo_atuacao := tempo_atuacao |})))))).

Definition pessoa_aleatoria : IO PessoaData :=
  io_bind (randint 200 950) (fun score =>
  io_bind (choice "A"%string ["B"; "C"; "D"]%string) (fun faixa =>
  io_bind (uniform 0.02 0.50) (fun u =>
  io_bind (randint 18 70) (fun idade =>
  io_bind (randint 1500 15000) (fun renda_mensal =>
  io_bind (choice "Solteiro"%string
             ["Casado"; "Divorciado"; "Viúvo"]%string) (fun estado_civil =>
  io_ret {| p_score := score; p_faixa := faixa;
            p_prob_inadimplencia := Py.round u 3; p_idade := idade;
            p_renda_mensal := renda_mensal;
            p_estado_civil := estado_civil |})))))).

Definition consultar_score_qi_tech_empresa (cnpj : string)
  : IO (QiTechScoreResponse EmpresaData) :=
  io_bind (match procurar cnpj empresas_mock with
           | Some empresa_data => io_ret empresa_data
           | None => empresa_aleatoria
           end) (fun empresa_data =>
  io_bind now_isoformat (fun ts =>
  io_bind now_isoformat (fun agora =>
  io_ret {| score := e_score empresa_data;
            faixa_score := e_faixa empresa_data;
            probabilidade_inadimplencia := e_prob_inadimplencia empresa_data;
            analise_completa :=
              {| documento := cnpj; dados := empresa_data;
                 fonte := "Qi Tech API (mockado)"; timestamp := ts |};
            data_consulta := agora |}))).

Definition consultar_score_qi_tech_pessoa (cpf : string)
  : IO (QiTechScoreResponse PessoaData) :=
  io_bind (match procurar cpf pessoas_mock with
           | Some pessoa_data => io_ret pessoa_data
           | None => pessoa_aleatoria
           end) (fun pessoa_data =>
  io_bind now_isoformat (fun ts =>
  io_bind now_isoformat (fun agora =>
  io_ret {| score := p_score pessoa_data;
            faixa_score := p_faixa pessoa_data;
            probabilidade_inadimplencia := p_prob_inadimplencia pessoa_data;
            analise_completa :=
              {| documento := cpf; dados := pessoa_data;
                 fonte := "Qi Tech API (mockado)"; timestamp := ts |};
            data_consulta := agora |}))).



(** *** [demo_qi_tech_integration] *)

Definition cnpj_exemplo : string := "12345678000123".

Definition dados_internos : RiskScoreInput :=
  {| idade_empresa := 5.0; cpf_score := 750; divida_total := 150000;
     faturamento_anual := 800000; saldo_medio_diario := 25000;
     faturamento_medio_mensal := 66667; estresse_caixa_dias := 3;
     valor_maior_cliente := 120000; faturamento_total_periodo := 600000;
     cnpj_score_api := 700 |}.

(** The branch on the difference of the two scores. *)
Definition recomendacao (diferenca score_interno : Q) (score_qi : Z)
  : string :=
  if diferenca <? 50 then "Scores similares - usar média ponderada"
  else if score_interno >? inject_Z score_qi
       then "Score interno mais conservador - revisar parâmetros"
       else "Qi Tech mais otimista - validar dados externos".

Record AnaliseInterna : Set := {
  ai_score : Q;
  ai_classificacao : Classificacao;
  ai_fonte : string
}.

Record QiTechEmpresa : Set := {
  qe_score : Z;
  qe_faixa : string;
  qe_probabilidade_inadimplencia : Q;
  qe_fonte : string
}.

Record Comparacao : Set := {
  diferenca_score : Q;
  c_recomendacao : string
}.

Record Demo : Type := {
  analise_interna : AnaliseInterna;
  qi_tech_empresa : QiTechEmpresa;
  comparacao : Comparacao;
  dados_completos_qi_tech : AnaliseCompleta EmpresaData
}.

(** The handler has no [try]: an exception of the calculation would
    leave it. *)
Definition demo_qi_tech_integration : IO (Py.result Demo) :=
  match calculate_risk_score dados_internos with
  | inl e => io_ret (Py.raise e)
  | inr (score_interno, classificacao_interna) =>
      io_bind (consultar_score_qi_tech_empresa cnpj_exemplo)
        (fun qi_tech_result =>
           let diferenca :=
             Qabs (score_interno - inject_Z (score qi_tech_result)) in
           io_ret (Py.ret
             {| analise_interna :=
                  {| ai_score := Py.round score_interno 2;
                     ai_classificacao := classificacao_interna;
                     ai_fonte := "QInvest Risk Score" |};
                qi_tech_empresa :=
                  {| qe_score := score qi_tech_result;
                     qe_faixa := faixa_score qi_tech_result;
                     qe_probabilidade_inadimplencia :=
                       probabilidade_inadimplencia qi_tech_result;
                     qe_fonte := "Qi Tech API" |};
                comparacao :=
                  {| diferenca_score := Py.round diferenca 2;
                     c_recomendacao :=
                       recomendacao diferenca score_interno
                         (score qi_tech_result) |};
                dados_completos_qi_tech :=
                  analise_completa qi_tech_result |}))
  end.

End QiTech.

(* ================================================================== *)
(** ** The learned model of [models/risk_score_model.py]

    The parts of [RiskScorePredictor] and of [train_and_evaluate_models]
    that are the repository's own code.  What pandas and scikit-learn do
    is taken as given: a column (a [Series]) is a value of an arbitrary
    type with its element-wise division and the column a scalar is
    broadcast to; the fitted pipeline is the number it predicts for a
    frame of one row, and the fitted scaler a function on frames.  A
    [DataFrame] is the list of its named columns, in order, the names
    distinct. *)

Module Modelo.

Inductive Erro : Set :=
| ValueError (msg : string)
| KeyError (key : string).

Definition resultado (T : Type) : Type := (Erro + T)%type.

(** The estimators [_create_model] builds, with their arguments. *)
Inductive Estimator : Set :=
| LinearRegression
| Ridge (alpha : Q)
| Lasso (alpha : Q)
| RandomForestRegressor (n_estimators max_depth random_state : Z)
| GradientBoostingRegressor (n_estimators max_depth random_state : Z).

Definition models : list (string * Estimator) :=
  [("linear"%string, LinearRegression);
   ("ridge"%string, Ridge 1.0);
   ("lasso"%string, Lasso 0.1);
   ("random_forest"%string, RandomForestRegressor 100 10 42);
   ("gradient_boosting"%string, GradientBoostingRegressor 100 5 42)].

(** [d.get(key, default)] *)
Fixpoint get {V : Type} (d : list (string * V)) (key : string) (default : V)
  : V :=
  match d with
  | [] => default
  | (k, v) :: d' => if String.eqb key k then v else get d' key default
  end.

Definition _create_model (model_type : string) : Estimator :=
  get models model_type LinearRegression.

(** The list [self.feature_columns] the constructor sets. *)
Definition feature_columns : list string :=
  ["idade_empresa"; "divida_total"; "faturamento_anual";
   "saldo_medio_diario"; "estresse_caixa_dias"; "valor_maior_cliente";
   "concentracao_clientes"]%string.

Section Frames.

Variable Series : Type.
Variable div : Series -> Series -> Series.

Definition DataFrame : Type := list (string * Series).

(** The column a scalar is broadcast to, in a given frame. *)
Variable broadcast : DataFrame -> Q -> Series.

(** The fitted pipeline on a frame of one row, and the fitted scaler. *)
Variable pipeline_predict : DataFrame -> Q.
Variable scaler_transform : DataFrame -> DataFrame.

Definition columns (df : DataFrame) : list string := map fst df.

(** [col in df.columns] *)
Definition has_column (col : string) (df : DataFrame) : bool :=
  existsb (String.eqb col) (columns df).

(** [df[col]] *)
Fixpoint getitem (df : DataFrame) (col : string) : resultado Series :=
  match df with
  | [] => inl (KeyError col)
  | (k, v) :: df' => if String.eqb col k then inr v else getitem df' col
  end.

(** [df[col] = v]: the column is replaced where it stands, or added
    last. *)
Fixpoint setitem (df : DataFrame) (col : string) (v : Series) : DataFrame :=
  match df with
  | [] => [(col, v)]
  | (k, x) :: df' =>
      if String.eqb col k then (k, v) :: df' else (k, x) :: setitem df' col v
  end.

(** [df[cols]]: the columns named, in the order they are named. *)
Fixpoint select (df : DataFrame) (cols : list string) : resultado DataFrame :=
  match cols with
  | [] => inr []
  | c :: cols' =>
      match getitem df c with
      | inl e => inl e
      | inr v =>
          match select df cols' with
          | inl e => inl e
          | inr out => inr ((c, v) :: out)
          end
      end
  end.

Definition prepare_features (feature_columns : list string) (df : DataFrame)
  : resultado DataFrame :=
  let df_processed := df in
  match
    (if (has_column "faturamento_total_periodo" df
         && has_column "valor_maior_cliente" df)%bool
     then
       match getitem df "valor_maior_cliente",
             getitem df "faturamento_total_periodo" with
       | inr maior, inr total =>
           inr (setitem df_processed "concentracao_clientes" (div maior total))
       | inl e, _ | _, inl e => inl e
       end
     else
       inr (setitem df_processed "concentracao_clientes"
              (broadcast df_processed 0.3)))
  with
  | inl e => inl e
  | inr df_processed =>
      let available_features :=
        filter (fun col => has_column col df_processed) feature_columns in
      match available_features with
      | [] => inl (ValueError "Nenhuma característica disponível para treinamento")
      | _ => select df_processed available_features
      end
  end.



End Frames.

(** An entry of the dict [results]: the metrics of a model that was
    trained, of which the selection reads the R² only, or the error. *)
Inductive Metrics : Set :=
| Trained (r2_score : Q)
| Failed (error : string).

(** The selection of the best model: [best_score] starts at minus
    infinity, written [None], and an entry replaces the best one when its
    R² is strictly greater. *)
Definition best_step (best : option string * option Q)
  (item : string * Metrics) : option string * option Q :=
  match snd item with
  | Trained score =>
      match snd best with
      | None => (Some (fst item), Some score)
      | Some best_score =>
          if score >? best_score then (Some (fst item), Some score) else best
      end
  | Failed _ => best
  end.

Definition best_model (results : list (string * Metrics))
  : option string * option Q :=
  fold_left best_step results (None, None).


End Modelo.

(* ================================================================== *)
(** ** Facts about the Python operators *)

Section Operators.

Lemma ltb_spec (x y : Q) : reflect (x < y) (x <? y).
Proof. unfold Py.ltb, Qlt. apply Z.ltb_spec0. Qed.

Lemma gtb_spec (x y : Q) : reflect (y < x) (x >? y).
Proof. unfold Py.gtb. apply ltb_spec. Qed.

Lemma truediv_pos (a b : Q) : 0 < b -> Py.truediv a b = Py.ret (a / b).
Proof.
  intros Hb. unfold Py.truediv.
  destruct (Qeq_bool b 0) eqn:E; [ | reflexivity ].
  apply Qeq_bool_eq in E. rewrite E in Hb. discriminate.
Qed.

Lemma min_spec (a b : Q) :
  (b < a /\ Py.min a b = b) \/ (a <= b /\ Py.min a b = a).
Proof.
  unfold Py.min. destruct (ltb_spec b a); [ left | right ]; split; auto.
  now apply Qnot_lt_le.
Qed.

Lemma max_spec (a b : Q) :
  (a < b /\ Py.max a b = b) \/ (b <= a /\ Py.max a b = a).
Proof.
  unfold Py.max. destruct (gtb_spec b a); [ left | right ]; split; auto.
  now apply Qnot_lt_le.
Qed.

End Operators.

(** Case analysis on every comparison of a ladder. *)
Ltac ladder :=
  repeat match goal with
    | |- context [Py.ltb ?x ?y] => destruct (ltb_spec x y)
    | |- context [Py.gtb ?x ?y] => destruct (gtb_spec x y)
    | |- context [Z.ltb ?x ?y] => destruct (Z.ltb_spec x y)
    | |- context [Z.gtb ?x ?y] => rewrite (Z.gtb_ltb x y)
    | |- context [Z.leb ?x ?y] => destruct (Z.leb_spec x y)
    end.

(** Closes a ladder goal once the ratio is named: every comparison is
    decided, and linear arithmetic discards the branches that cannot be
    taken. *)
Ltac ladder_lra :=
  ladder; first [ reflexivity | exfalso; lra | lia ].

(* ================================================================== *)
(** ** The normaliser ladders *)

Section Ladders.

(** The guarded ratio sub-scores, once the guard is passed. *)
Lemma risco_endividamento_pos (d r : Q) :
  0 < r ->
  risco_endividamento d r =
    Py.ret ((if d / r >? 1.0 then 100
             else if d / r >? 0.6 then 300
             else if d / r >? 0.3 then 700 else 1000) : Z).
Proof.
  intros Hr. unfold risco_endividamento.
  destruct (gtb_spec r 0); [ | contradiction ].
  now rewrite (truediv_pos d Hr).
Qed.

Lemma risco_liquidez_pos (b r : Q) :
  0 < r ->
  risco_liquidez b r =
    Py.ret ((if b / r <? 0.1 then 100
             else if b / r <? 0.4 then 500 else 1000) : Z).
Proof.
  intros Hr. unfold risco_liquidez.
  destruct (gtb_spec r 0); [ | contradiction ].
  now rewrite (truediv_pos b Hr).
Qed.

Lemma risco_concentracao_pos (v r : Q) :
  0 < r ->
  risco_concentracao v r =
    Py.ret ((if v / r >? 0.6 then 100
             else if v / r >? 0.3 then 500
             else if v / r >? 0.2 then 900 else 1000) : Z).
Proof.
  intros Hr. unfold risco_concentracao.
  destruct (gtb_spec r 0); [ | contradiction ].
  now rewrite (truediv_pos v Hr).
Qed.

(** ... and when the guard fails. *)
Lemma risco_endividamento_guard (d r : Q) :
  r <= 0 -> risco_endividamento d r = Py.ret 0%Z.
Proof.
  intros Hr. unfold risco_endividamento.
  destruct (gtb_spec r 0) as [H | _]; [ | reflexivity ].
  exfalso. apply (Qlt_not_le _ _ H Hr).
Qed.

Lemma risco_liquidez_guard (b r : Q) :
  r <= 0 -> risco_liquidez b r = Py.ret 0%Z.
Proof.
  intros Hr. unfold risco_liquidez.
  destruct (gtb_spec r 0) as [H | _]; [ | reflexivity ].
  exfalso. apply (Qlt_not_le _ _ H Hr).
Qed.

Lemma risco_concentracao_guard (v r : Q) :
  r <= 0 -> risco_concentracao v r = Py.ret 0%Z.
Proof.
  intros Hr. unfold risco_concentracao.
  destruct (gtb_spec r 0) as [H | _]; [ | reflexivity ].
  exfalso. apply (Qlt_not_le _ _ H Hr).
Qed.

(** No ladder raises: the three ratio sub-scores always have a value. *)
Lemma risco_endividamento_total (d r : Q) :
  exists v, risco_endividamento d r = Py.ret v.
Proof.
  destruct (Qlt_le_dec 0 r) as [H | H].
  - rewrite (risco_endividamento_pos d H). eauto.
  - rewrite (risco_endividamento_guard d H). eauto.
Qed.

Lemma risco_liquidez_total (b r : Q) :
  exists v, risco_liquidez b r = Py.ret v.
Proof.
  destruct (Qlt_le_dec 0 r) as [H | H].
  - rewrite (risco_liquidez_pos b H). eauto.
  - rewrite (risco_liquidez_guard b H). eauto.
Qed.

Lemma risco_concentracao_total (v r : Q) :
  exists s, risco_concentracao v r = Py.ret s.
Proof.
  destruct (Qlt_le_dec 0 r) as [H | H].
  - rewrite (risco_concentracao_pos v H). eauto.
  - rewrite (risco_concentracao_guard v H). eauto.
Qed.

(** [normalizar] returns the six sub-scores, each the value of its own
    ladder. *)
Lemma normalizar_total (x : RiskScoreInput) :
  exists s, normalizar x = Py.ret s
    /\ sub_idade s = risco_idade (idade_empresa x)
    /\ sub_cpf s = risco_cpf (cpf_score x)
    /\ risco_endividamento (divida_total x) (faturamento_anual x)
       = Py.ret (sub_endividamento s)
    /\ risco_liquidez (saldo_medio_diario x) (faturamento_medio_mensal x)
       = Py.ret (sub_liquidez s)
    /\ sub_estresse s = risco_estresse (estresse_caixa_dias x)
    /\ risco_concentracao (valor_maior_cliente x) (faturamento_total_periodo x)
       = Py.ret (sub_concentracao s).
Proof.
  unfold normalizar.
  destruct (risco_endividamento_total (divida_total x) (faturamento_anual x))
    as [e He].
  destruct (risco_liquidez_total (saldo_medio_diario x)
              (faturamento_medio_mensal x)) as [l Hl].
  destruct (risco_concentracao_total (valor_maior_cliente x)
              (faturamento_total_periodo x)) as [c Hc].
  rewrite He, Hl, Hc. cbn.
  eexists; split; [ reflexivity | cbn; auto 10 ].
Qed.

Lemma calculate_risk_score_total (x : RiskScoreInput) :
  exists s, normalizar x = Py.ret s
    /\ calculate_risk_score x
       = Py.ret (Py.round (risco_final s (cnpj_score_api x)) 2,
                 classificar (risco_final s (cnpj_score_api x))).
Proof.
  destruct (normalizar_total x) as (s & Hs & _).
  exists s. split; [ exact Hs | ].
  unfold calculate_risk_score. now rewrite Hs.
Qed.

End Ladders.

(* ================================================================== *)
(** ** Aggregation, clamping and rounding *)

Section Aggregation.

(** A value that is an integer is its own rounding. *)
Lemma round_half_even_Z (x : Q) (n : Z) :
  x == inject_Z n -> Py.round_half_even x = n.
Proof.
  intros Hx. unfold Py.round_half_even.
  rewrite (Qfloor_comp x (inject_Z n) Hx), Qfloor_Z.
  destruct (ltb_spec (x - inject_Z n) (1 # 2)); [ reflexivity | ].
  exfalso. lra.
Qed.

Lemma scale_pos (d : nat) : 0 < inject_Z (10 ^ Z.of_nat d).
Proof.
  change 0 with (inject_Z 0). rewrite <- Zlt_Qlt.
  apply Z.pow_pos_nonneg; lia.
Qed.

(** A value with at most [d] decimals is left unchanged by
    [round(_, d)]. *)
Lemma round_exact (x : Q) (d : nat) (n : Z) :
  x * inject_Z (10 ^ Z.of_nat d) == inject_Z n -> Py.round x d == x.
Proof.
  intros Hx. unfold Py.round.
  rewrite (round_half_even_Z Hx), <- Hx.
  pose proof (scale_pos d) as Hs.
  field. intros E. rewrite E in Hs. discriminate.
Qed.

Lemma soma_ponderada_centesimos (s : SubScores) (g : Z) :
  soma_ponderada s g == inject_Z (centesimos s g) / 100.
Proof.
  unfold soma_ponderada, centesimos, pesos.endividamento, pesos.liquidez,
    pesos.estresse_caixa, pesos.concentracao, pesos.idade, pesos.cpf_score,
    pesos.score_biro.
  rewrite !inject_Z_plus, !inject_Z_mult. field.
Qed.

(** The clamp keeps the sum, or replaces it by one of its bounds. *)
Lemma risco_final_cases (s : SubScores) (g : Z) :
  let v := soma_ponderada s g in
  (v <= 0 /\ risco_final s g = 0)
  \/ (0 < v < 1000 /\ risco_final s g = v)
  \/ (1000 <= v /\ risco_final s g = 1000).
Proof.
  cbv zeta. unfold risco_final.
  destruct (min_spec 1000 (soma_ponderada s g)) as [[H1 ->] | [H1 ->]];
    [ destruct (max_spec 0 (soma_ponderada s g)) as [[H2 ->] | [H2 ->]]
    | destruct (max_spec 0 1000) as [[H2 ->] | [H2 ->]] ].
  - right; left. split; [ split; assumption | reflexivity ].
  - left. split; [ assumption | reflexivity ].
  - right; right. split; [ assumption | reflexivity ].
  - exfalso. lra.
Qed.

Lemma risco_final_range (s : SubScores) (g : Z) :
  0 <= risco_final s g <= 1000.
Proof.
  destruct (risco_final_cases s g) as [[H ->] | [[H ->] | [H ->]]]; lra.
Qed.

(** The clamped score has at most two decimals ... *)
Lemma risco_final_centesimos (s : SubScores) (g : Z) :
  exists n, risco_final s g * 100 == inject_Z n.
Proof.
  destruct (risco_final_cases s g) as [[H ->] | [[H ->] | [H ->]]].
  - exists 0%Z. reflexivity.
  - exists (centesimos s g). rewrite soma_ponderada_centesimos. field.
  - exists 100000%Z. reflexivity.
Qed.

(** ... so the rounding applied on return does not change it. *)
Lemma round_risco_final (s : SubScores) (g : Z) :
  Py.round (risco_final s g) 2 == risco_final s g.
Proof.
  destruct (risco_final_centesimos s g) as [n Hn].
  apply (@round_exact (risco_final s g) 2%nat n). exact Hn.
Qed.


(** The classification depends on the value of the score only, not on
    the fraction that represents it ... *)
Lemma classificar_Qeq (a b : Q) : a == b -> classificar a = classificar b.
Proof. intros E. unfold classificar. ladder_lra. Qed.

(** ... and it is the table of strict thresholds. *)
Lemma classificar_spec (v : Q) :
  (classificar v = A <-> 800 < v)
  /\ (classificar v = B <-> 600 < v <= 800)
  /\ (classificar v = C <-> 400 < v <= 600)
  /\ (classificar v = D <-> 200 < v <= 400)
  /\ (classificar v = automatically_reproved <-> v <= 200).
Proof.
  unfold classificar. ladder;
    repeat split; intros; try discriminate; try reflexivity; lra.
Qed.

End Aggregation.

(* ================================================================== *)
(** ** Values and monotonicity of the sub-scores *)

Section SubScoreValues.

Local Ltac hundreds :=
  match goal with
  | |- is_sub_score ?v =>
      let j := eval vm_compute in (v / 100)%Z in
      exists j; split; [ reflexivity | lia ]
  end.

Lemma risco_idade_values (a : Q) : is_sub_score (risco_idade a).
Proof. unfold risco_idade. ladder; hundreds. Qed.

Lemma risco_cpf_values (c : Z) : is_sub_score (risco_cpf c).
Proof. unfold risco_cpf. ladder; hundreds. Qed.

Lemma risco_estresse_values (n : Z) : is_sub_score (risco_estresse n).
Proof. unfold risco_estresse. ladder; hundreds. Qed.

Lemma risco_endividamento_values (d r : Q) (v : Z) :
  risco_endividamento d r = Py.ret v -> is_sub_score v.
Proof.
  destruct (Qlt_le_dec 0 r) as [H | H];
    [ rewrite (risco_endividamento_pos d H)
    | rewrite (risco_endividamento_guard d H) ];
    intros E; injection E as <-; ladder; hundreds.
Qed.

Lemma risco_liquidez_values (b r : Q) (v : Z) :
  risco_liquidez b r = Py.ret v -> is_sub_score v.
Proof.
  destruct (Qlt_le_dec 0 r) as [H | H];
    [ rewrite (risco_liquidez_pos b H)
    | rewrite (risco_liquidez_guard b H) ];
    intros E; injection E as <-; ladder; hundreds.
Qed.

Lemma risco_concentracao_values (c r : Q) (v : Z) :
  risco_concentracao c r = Py.ret v -> is_sub_score v.
Proof.
  destruct (Qlt_le_dec 0 r) as [H | H];
    [ rewrite (risco_concentracao_pos c H)
    | rewrite (risco_concentracao_guard c H) ];
    intros E; injection E as <-; ladder; hundreds.
Qed.

Lemma normalizar_values (x : RiskScoreInput) (s : SubScores) :
  normalizar x = Py.ret s ->
  is_sub_score (sub_idade s) /\ is_sub_score (sub_cpf s)
  /\ is_sub_score (sub_endividamento s) /\ is_sub_score (sub_liquidez s)
  /\ is_sub_score (sub_estresse s) /\ is_sub_score (sub_concentracao s).
Proof.
  intros Hs.
  destruct (normalizar_total x) as (s' & Hs' & Hi & Hc & He & Hl & Ht & Hn).
  rewrite Hs in Hs'. injection Hs' as <-.
  rewrite Hi, Hc, Ht.
  repeat split;
    eauto using risco_idade_values, risco_cpf_values, risco_estresse_values,
      risco_endividamento_values, risco_liquidez_values,
      risco_concentracao_values.
Qed.

(** With sub-scores in hundreds and an integer bureau score, the
    clamped score is a whole number of halves. *)
Lemma risco_final_halves (x : RiskScoreInput) (s : SubScores) :
  normalizar x = Py.ret s ->
  exists k : Z, risco_final s (cnpj_score_api x) == inject_Z k / 2.
Proof.
  intros Hs.
  destruct (normalizar_values x Hs)
    as ((ji & Ei & _) & (jc & Ec & _) & (je & Ee & _) & (jl & El & _)
        & (jt & Et & _) & (jn & En & _)).
  destruct (risco_final_cases s (cnpj_score_api x))
    as [[H ->] | [[H ->] | [H ->]]].
  - exists 0%Z. reflexivity.
  - exists (30 * je + 20 * jl + 20 * jt + 10 * jn + 10 * ji + 10 * jc
            + cnpj_score_api x)%Z.
    rewrite soma_ponderada_centesimos. unfold centesimos.
    rewrite Ei, Ec, Ee, El, Et, En.
    rewrite !inject_Z_plus, !inject_Z_mult. field.
  - exists 2000%Z. reflexivity.
Qed.



End SubScoreValues.

(* ================================================================== *)
(** ** The properties of the specification *)

(** C3 — boundary values of the six ladders.  Every comparison is
    strict, so a value exactly on a threshold gets the higher of the two
    neighbouring sub-scores: age 2 gives 600 and age 5 gives 1000; credit
    400, 700, 900 give 500, 700, 1000; a leverage ratio of 1.0, 0.6, 0.3
    gives 300, 700, 1000; a liquidity ratio of 0.1, 0.4 gives 500, 1000;
    10, 5, 0 stress days give 300, 700, 1000; a concentration ratio of
    0.6, 0.3, 0.2 gives 500, 900, 1000.  The ratios are those of any
    numerator [n] over any positive denominator [r]. *)
Theorem boundary_values_take_the_higher_sub_score (n r : Q) :
  0 < r ->
  (forall a, a == 2 -> risco_idade a = 600%Z)
  /\ (forall a, a == 5 -> risco_idade a = 1000%Z)
  /\ risco_cpf 400 = 500%Z /\ risco_cpf 700 = 700%Z /\ risco_cpf 900 = 1000%Z
  /\ (n / r == 1.0 -> risco_endividamento n r = Py.ret 300%Z)
  /\ (n / r == 0.6 -> risco_endividamento n r = Py.ret 700%Z)
  /\ (n / r == 0.3 -> risco_endividamento n r = Py.ret 1000%Z)
  /\ (n / r == 0.1 -> risco_liquidez n r = Py.ret 500%Z)
  /\ (n / r == 0.4 -> risco_liquidez n r = Py.ret 1000%Z)
  /\ risco_estresse 10 = 300%Z /\ risco_estresse 5 = 700%Z
  /\ risco_estresse 0 = 1000%Z
  /\ (n / r == 0.6 -> risco_concentracao n r = Py.ret 500%Z)
  /\ (n / r == 0.3 -> risco_concentracao n r = Py.ret 900%Z)
  /\ (n / r == 0.2 -> risco_concentracao n r = Py.ret 1000%Z).
Proof.
  intros Hr.
  rewrite (risco_endividamento_pos n Hr), (risco_liquidez_pos n Hr),
    (risco_concentracao_pos n Hr).
  set (q := n / r).
  repeat split; try reflexivity; intros; try intros; unfold risco_idade;
    f_equal; ladder_lra.
Qed.

(** The hypothesis of C3 holds at 3 / 5, a ratio of exactly 0.6: the
    leverage sub-score is 700 and the concentration sub-score 500. *)
Lemma boundary_values_witness :
  0 < 5 /\ risco_endividamento 3 5 = Py.ret 700%Z
  /\ risco_concentracao 3 5 = Py.ret 500%Z.
Proof.
  assert (H : 0 < 5) by reflexivity.
  pose proof (boundary_values_take_the_higher_sub_score 3 H) as T.
  split; [ exact H | split ].
  - apply T. vm_compute. reflexivity.
  - apply T. vm_compute. reflexivity.
Defined.



(** C1 — range and grade.  For every valid request the calculation
    returns a score between 0 and 1000, and the grade is the one the table
    of strict thresholds gives for the clamped score: A above 800, B above
    600, C above 400, D above 200, [automatically_reproved] otherwise; so
    exactly 800 is graded B and exactly 600 is graded C. *)
Theorem score_in_range_and_grade_from_table (x : RiskScoreInput) :
  valid x ->
  exists (subs : SubScores) (s : Q) (g : Classificacao),
    normalizar x = Py.ret subs
    /\ calculate_risk_score x = Py.ret (s, g)
    /\ 0 <= s <= 1000
    /\ (let rf := risco_final subs (cnpj_score_api x) in
        0 <= rf <= 1000
        /\ (g = A <-> 800 < rf)
        /\ (g = B <-> 600 < rf <= 800)
        /\ (g = C <-> 400 < rf <= 600)
        /\ (g = D <-> 200 < rf <= 400)
        /\ (g = automatically_reproved <-> rf <= 200)
        /\ (rf == 800 -> g = B)
        /\ (rf == 600 -> g = C)).
Proof.
  intros _.
  destruct (calculate_risk_score_total x) as (subs & Hs & Hout).
  exists subs. do 2 eexists.
  split; [ exact Hs | split; [ exact Hout | ] ].
  pose proof (risco_final_range subs (cnpj_score_api x)) as Hr.
  pose proof (round_risco_final subs (cnpj_score_api x)) as Hround.
  pose proof (classificar_spec (risco_final subs (cnpj_score_api x)))
    as (HA & HB & HC & HD & HR).
  split; [ rewrite Hround; exact Hr | ].
  cbv zeta. repeat split; try tauto; try lra.
  - intros E. apply HB. lra.
  - intros E. apply HC. lra.
Qed.

(** The request [EXEMPLO_800] is valid, and its score is exactly 800:
    it is graded B. *)
Lemma score_in_range_witness :
  valid EXEMPLO_800
  /\ exists s : Q,
       calculate_risk_score EXEMPLO_800 = Py.ret (s, B) /\ s == 800.
Proof.
  assert (V : valid EXEMPLO_800)
    by (unfold valid; repeat split; vm_compute; discriminate).
  split; [ exact V | ].
  destruct (score_in_range_and_grade_from_table V)
    as (subs & s & g & Hn & Hc & _ & _ & _ & _ & _ & _ & _ & H800 & _).
  vm_compute in Hn. injection Hn as <-.
  rewrite (H800 ltac:(vm_compute; reflexivity)) in Hc.
  exists s. split; [ exact Hc | ].
  vm_compute in Hc. injection Hc as <-. vm_compute. reflexivity.
Defined.

(** C10 — granularity.  In exact arithmetic the clamped score of a
    valid request is a whole number of halves; the rounding to two
    decimals applied on return therefore leaves it unchanged, and the
    grade, computed before the rounding, is also the grade of the score
    that is returned. *)
Theorem score_is_a_multiple_of_one_half (x : RiskScoreInput) :
  valid x ->
  exists (subs : SubScores) (s : Q) (g : Classificacao) (k : Z),
    normalizar x = Py.ret subs
    /\ calculate_risk_score x = Py.ret (s, g)
    /\ risco_final subs (cnpj_score_api x) == inject_Z k * 0.5
    /\ s == risco_final subs (cnpj_score_api x)
    /\ g = classificar (risco_final subs (cnpj_score_api x))
    /\ g = classificar s.
Proof.
  intros _.
  destruct (calculate_risk_score_total x) as (subs & Hs & Hout).
  destruct (risco_final_halves x Hs) as (k & Hk).
  pose proof (round_risco_final subs (cnpj_score_api x)) as Hround.
  exists subs. do 2 eexists. exists k.
  split; [ exact Hs | split; [ exact Hout | ] ].
  repeat split.
  - rewrite Hk. field.
  - exact Hround.
  - apply classificar_Qeq. symmetry. exact Hround.
Qed.

(** The test-suite's request is valid; its score is a whole number of
    halves. *)
Lemma score_granularity_witness :
  valid TEST_RISK_DATA
  /\ exists (s : Q) (g : Classificacao) (k : Z),
       calculate_risk_score TEST_RISK_DATA = Py.ret (s, g)
       /\ s == inject_Z k * 0.5 /\ g = classificar s.
Proof.
  assert (V : valid TEST_RISK_DATA)
    by (unfold valid; repeat split; vm_compute; discriminate).
  split; [ exact V | ].
  destruct (score_is_a_multiple_of_one_half V)
    as (subs & s & g & k & _ & Hc & Hk & Hs & _ & Hg).
  exists s, g, k.
  split; [ exact Hc | split; [ rewrite Hs; exact Hk | exact Hg ] ].
Defined.



(** The risk premium is linear in the score: a four-thousandth of its
    distance to 1000. *)
Lemma premio_risco_linear (risco_final : Q) :
  premio_risco risco_final == (1000 - risco_final) * (1 # 4000).
Proof. unfold premio_risco. field. Qed.

(** How the rate and its two premium ladders unfold. *)
Ltac taxa :=
  unfold calcular_taxa_juros_anual; rewrite premio_risco_linear;
  unfold TAXA_BASE, premio_prazo, premio_valor.



(** C9 — bounds of the rate.  For a score between 0 and 1000, a
    positive term and an amount that is not negative, the rate lies
    between 0.12 and 0.48; it is 0.12 at score 1000 with a term of at most
    6 months and an amount below 50000, and 0.48 at score 0 with a term
    above 18 months and an amount of at least 300000. *)
Theorem rate_between_12_and_48_percent
  (risco_final : Q) (prazo_meses : Z) (valor_solicitado : Q) :
  0 <= risco_final <= 1000 ->
  (0 < prazo_meses)%Z ->
  0 <= valor_solicitado ->
  0.12 <= calcular_taxa_juros_anual risco_final prazo_meses valor_solicitado
       <= 0.48
  /\ (risco_final == 1000 -> (prazo_meses <= 6)%Z -> valor_solicitado < 50000 ->
      calcular_taxa_juros_anual risco_final prazo_meses valor_solicitado
      == 0.12)
  /\ (risco_final == 0 -> (18 < prazo_meses)%Z -> 300000 <= valor_solicitado ->
      calcular_taxa_juros_anual risco_final prazo_meses valor_solicitado
      == 0.48).
Proof.
  intros Hr _ _. taxa. repeat split; intros; ladder; first [ lra | lia ].
Qed.

(** Both extremes are reached: 0.12 at (1000, 6, 0) and 0.48 at
    (0, 24, 300000). *)
Lemma rate_bounds_witness :
  calcular_taxa_juros_anual 1000 6 0 == 0.12
  /\ calcular_taxa_juros_anual 0 24 300000 == 0.48.
Proof.
  split.
  - apply (@rate_between_12_and_48_percent 1000 6 0);
      [ split; vm_compute; discriminate | lia | vm_compute; discriminate
      | vm_compute; reflexivity | lia | reflexivity ].
  - apply (@rate_between_12_and_48_percent 0 24 300000);
      [ split; vm_compute; discriminate | lia | vm_compute; discriminate
      | vm_compute; reflexivity | lia | vm_compute; discriminate ].
Defined.

(** The boundary ratios and the extreme rates, evaluated in binary64:
    the quotients 1/1, 3/5 and 3/10 are the very numbers the literals 1.0,
    0.6 and 0.3 denote, and the rates at the two extremes are the numbers
    0.12 and 0.48 denote. *)
Lemma binary64_boundaries :
  Binary64.risco_endividamento 1 1 = Py.ret 300%Z
  /\ Binary64.risco_endividamento 3 5 = Py.ret 700%Z
  /\ Binary64.risco_endividamento 3 10 = Py.ret 1000%Z
  /\ Binary64.risco_liquidez 1 10 = Py.ret 500%Z
  /\ Binary64.risco_liquidez 2 5 = Py.ret 1000%Z
  /\ Binary64.risco_concentracao 3 5 = Py.ret 500%Z
  /\ Binary64.risco_concentracao 3 10 = Py.ret 900%Z
  /\ Binary64.risco_concentracao 1 5 = Py.ret 1000%Z
  /\ Binary64.risco_idade 2 = 600%Z /\ Binary64.risco_idade 5 = 1000%Z
  /\ Binary64.classificar 800 = B /\ Binary64.classificar 600 = C
  /\ Binary64.calcular_taxa_juros_anual 1000 6 0 = 0.12%float
  /\ Binary64.calcular_taxa_juros_anual 0 24 300000 = 0.48%float.
Proof. repeat split. Qed.


(** The full-score request of the test-suite is answered with the score
    780, the grade B and the rate 0.205. *)
Lemma full_score_of_the_test_request :
  exists out : FullScoreOutput,
    fst (calculate_full_score_endpoint TEST_FULL_DATA (mundo 0)) = OK out
    /\ full_score out == 780
    /\ full_classificacao out = B
    /\ full_taxa_juros_anual out == 0.205.
Proof.
  eexists. split; [ vm_compute; reflexivity | ].
  repeat split.
Qed.


(** The property is not one every function of the model has: the mocked
    bureau lookup, asked for a CNPJ that is not in its table, answers
    differently in two states of the world, and changes the world. *)
Lemma bureau_lookup_depends_on_the_world :
  fst (consultar_score_qi_tech_empresa "00000000000000" (mundo 0)) = 300%Z
  /\ fst (consultar_score_qi_tech_empresa "00000000000000" (mundo 1)) = 301%Z
  /\ taken (snd (consultar_score_qi_tech_empresa "00000000000000" (mundo 0)))
     = 1%nat.
Proof. repeat split. Qed.

(** C2, as stated, does not hold: on the literal request the
    concentration sub-score is not 500 and the score is not 760. *)
Lemma literal_scenario_is_not_760 :
  exists (subs : SubScores) (s : Q) (g : Classificacao),
    normalizar TEST_RISK_DATA = Py.ret subs
    /\ calculate_risk_score TEST_RISK_DATA = Py.ret (s, g)
    /\ sub_concentracao subs <> 500%Z
    /\ ~ s == 760.
Proof.
  do 3 eexists.
  split; [ vm_compute; reflexivity | ].
  split; [ vm_compute; reflexivity | ].
  split; [ cbn; discriminate | vm_compute; discriminate ].
Qed.

(** C2, amended — the literal scenario.  On the request {age 3.5,
    credit 750, debt 100000, revenue 500000, balance 15000, monthly
    revenue 41667, 2 stress days, largest client 80000, period revenue
    300000, bureau 800} the sub-scores are leverage 1000, liquidity 500,
    cash-stress 700, concentration 900 (the ratio 0.2667 is above 0.2 and
    not above 0.3), age 600 and credit 700; the score is 780 and the grade
    B, in exact arithmetic and in binary64 alike. *)
Theorem literal_scenario_scores_780 :
  normalizar TEST_RISK_DATA
  = Py.ret {| sub_idade := 600; sub_cpf := 700; sub_endividamento := 1000;
              sub_liquidez := 500; sub_estresse := 700;
              sub_concentracao := 900 |}
  /\ (exists s : Q,
        calculate_risk_score TEST_RISK_DATA = Py.ret (s, B) /\ s == 780)
  /\ Binary64.calculate_risk_score Binary64.TEST_RISK_DATA
     = Py.ret (780%float, B).
Proof.
  split; [ vm_compute; reflexivity | split ].
  - eexists. split; [ vm_compute; reflexivity | vm_compute; reflexivity ].
  - vm_compute. reflexivity.
Qed.

(* ================================================================== *)
(** ** Further properties of the engine *)

Section MoreLadders.







(** The least values of the two ladders that have no guard. *)
Lemma risco_idade_min (a : Q) : (400 <= risco_idade a)%Z.
Proof. unfold risco_idade. ladder; lia. Qed.

Lemma risco_cpf_min (c : Z) : (100 <= risco_cpf c)%Z.
Proof. unfold risco_cpf. ladder; lia. Qed.

(** The weighted sum is half the bureau score plus a share of the six
    sub-scores that lies between 25 and 500. *)
Lemma centesimos_bounds (x : RiskScoreInput) (s : SubScores) :
  normalizar x = Py.ret s ->
  (2500 + 50 * cnpj_score_api x <= centesimos s (cnpj_score_api x)
   <= 50000 + 50 * cnpj_score_api x)%Z.
Proof.
  intros Hs.
  destruct (normalizar_values x Hs)
    as ((ji & Ei & Bi) & (jc & Ec & Bc) & (je & Ee & Be) & (jl & El & Bl)
        & (jt & Et & Bt) & (jn & En & Bn)).
  destruct (normalizar_total x) as (s' & Hs' & Hi & Hc & _).
  rewrite Hs in Hs'. injection Hs' as <-.
  pose proof (risco_idade_min (idade_empresa x)) as Mi.
  pose proof (risco_cpf_min (cpf_score x)) as Mc.
  rewrite <- Hi in Mi. rewrite <- Hc in Mc.
  unfold centesimos. lia.
Qed.

End MoreLadders.



Section Scaling.

Variable k : Q.
Hypothesis k_pos : 0 < k.







End Scaling.



(** X3 — where a sub-score of 0 comes from.  Each ladder on a ratio
    gives at least 100, so the leverage, liquidity and concentration
    sub-scores are 0 exactly when their denominator is not positive; the
    cash-stress sub-score is 0 exactly above 10 days; the age and credit
    sub-scores are never below 400 and 100. *)
Theorem zero_sub_score_iff_no_denominator (x : RiskScoreInput) :
  exists subs : SubScores,
    normalizar x = Py.ret subs
    /\ (sub_endividamento subs = 0%Z <-> faturamento_anual x <= 0)
    /\ (sub_liquidez subs = 0%Z <-> faturamento_medio_mensal x <= 0)
    /\ (sub_concentracao subs = 0%Z <-> faturamento_total_periodo x <= 0)
    /\ (sub_estresse subs = 0%Z <-> (10 < estresse_caixa_dias x)%Z)
    /\ (400 <= sub_idade subs)%Z
    /\ (100 <= sub_cpf subs)%Z.
Proof.
  destruct (normalizar_total x) as (subs & Hs & Hi & Hc & He & Hl & Ht & Hk).
  exists subs. split; [ exact Hs | ].
  rewrite Hi, Hc, Ht.
  repeat split;
    try apply risco_idade_min; try apply risco_cpf_min.
  - intros E. destruct (Qlt_le_dec 0 (faturamento_anual x)) as [H | H];
      [ | exact H ].
    rewrite (risco_endividamento_pos _ H), E in He.
    injection He as He. revert He. ladder; discriminate.
  - intros H. rewrite (risco_endividamento_guard _ H) in He. now injection He.
  - intros E. destruct (Qlt_le_dec 0 (faturamento_medio_mensal x)) as [H | H];
      [ | exact H ].
    rewrite (risco_liquidez_pos _ H), E in Hl.
    injection Hl as Hl. revert Hl. ladder; discriminate.
  - intros H. rewrite (risco_liquidez_guard _ H) in Hl. now injection Hl.
  - intros E. destruct (Qlt_le_dec 0 (faturamento_total_periodo x)) as [H | H];
      [ | exact H ].
    rewrite (risco_concentracao_pos _ H), E in Hk.
    injection Hk as Hk. revert Hk. ladder; discriminate.
  - intros H. rewrite (risco_concentracao_guard _ H) in Hk. now injection Hk.
  - unfold risco_estresse. ladder; intros; first [ lia | discriminate ].
  - unfold risco_estresse. ladder; intros; first [ lia | reflexivity ].
Qed.

Section BureauShare.

(** The weighted sum against the bureau score: between 25 and 500 above
    its half. *)
Lemma soma_ponderada_bounds (x : RiskScoreInput) (s : SubScores) :
  normalizar x = Py.ret s ->
  25 + inject_Z (cnpj_score_api x) * (1 # 2)
  <= soma_ponderada s (cnpj_score_api x)
  <= 500 + inject_Z (cnpj_score_api x) * (1 # 2).
Proof.
  intros Hs. destruct (centesimos_bounds x Hs) as [Hlo Hhi].
  rewrite soma_ponderada_centesimos.
  rewrite Zle_Qle in Hlo. rewrite Zle_Qle in Hhi.
  rewrite inject_Z_plus, inject_Z_mult in Hlo, Hhi.
  change (inject_Z 2500) with 2500 in Hlo.
  change (inject_Z 50000) with 50000 in Hhi.
  change (inject_Z 50) with 50 in Hlo, Hhi.
  set (c := inject_Z (centesimos s (cnpj_score_api x))) in *.
  set (g := inject_Z (cnpj_score_api x)) in *.
  unfold Qdiv. change (/ 100) with (1 # 100). split; lra.
Qed.

End BureauShare.

(** X4 — the clamp is idle on the declared domain.  With a bureau score
    between 0 and 1000 the weighted sum already lies between 25 and 1000:
    the score returned is the weighted sum itself, never below 25; the
    least is reached, and graded [automatically_reproved]. *)
Theorem clamp_is_idle_for_a_valid_bureau_score (x : RiskScoreInput) :
  (0 <= cnpj_score_api x <= 1000)%Z ->
  (exists (subs : SubScores) (s : Q) (g : Classificacao),
     normalizar x = Py.ret subs
     /\ calculate_risk_score x = Py.ret (s, g)
     /\ s == soma_ponderada subs (cnpj_score_api x)
     /\ 25 <= s <= 1000)
  /\ (exists s : Q,
        calculate_risk_score PIOR_CASO = Py.ret (s, automatically_reproved)
        /\ s == 25).
Proof.
  intros [Hlo Hhi]. split.
  - destruct (calculate_risk_score_total x) as (subs & Hs & Hout).
    exists subs. do 2 eexists.
    split; [ exact Hs | split; [ exact Hout | ] ].
    rewrite round_risco_final.
    destruct (soma_ponderada_bounds x Hs) as [Blo Bhi].
    rewrite Zle_Qle in Hlo. rewrite Zle_Qle in Hhi.
    change (inject_Z 0) with 0 in Hlo. change (inject_Z 1000) with 1000 in Hhi.
    set (g := inject_Z (cnpj_score_api x)) in *.
    destruct (risco_final_cases subs (cnpj_score_api x))
      as [[H ->] | [[H ->] | [H ->]]]; split; lra.
  - eexists. split; vm_compute; reflexivity.
Qed.

(** The worst valid request: a bureau score of 0 is in the domain, and
    the score is 25. *)
Lemma clamp_is_idle_witness :
  (0 <= cnpj_score_api PIOR_CASO <= 1000)%Z
  /\ exists (s : Q) (g : Classificacao),
       calculate_risk_score PIOR_CASO = Py.ret (s, g) /\ 25 <= s <= 1000.
Proof.
  assert (H : (0 <= cnpj_score_api PIOR_CASO <= 1000)%Z) by (cbn; lia).
  split; [ exact H | ].
  destruct (clamp_is_idle_for_a_valid_bureau_score PIOR_CASO H)
    as ((subs & s & g & _ & Hc & _ & Hs) & _).
  exists s, g. split; assumption.
Defined.




Section Pricing.






(** Rounding half to even moves a value by at most one half, and keeps
    it between the integers that enclose it. *)
Lemma round_half_even_error (x : Q) :
  - (1 # 2) <= inject_Z (Py.round_half_even x) - x <= 1 # 2.
Proof.
  unfold Py.round_half_even.
  pose proof (Qfloor_le x) as Hlo. pose proof (Qlt_floor x) as Hhi.
  rewrite inject_Z_plus in Hhi. change (inject_Z 1) with 1 in Hhi.
  destruct (ltb_spec (x - inject_Z (Qfloor x)) (1 # 2)) as [H1 | H1];
    [ split; lra | ].
  destruct (ltb_spec (1 # 2) (x - inject_Z (Qfloor x))) as [H2 | H2];
    [ rewrite inject_Z_plus; change (inject_Z 1) with 1; split; lra | ].
  destruct (Z.even (Qfloor x));
    [ | rewrite inject_Z_plus; change (inject_Z 1) with 1 ]; split; lra.
Qed.

Lemma round_half_even_between (a b : Z) (x : Q) :
  inject_Z a <= x <= inject_Z b ->
  (a <= Py.round_half_even x <= b)%Z.
Proof.
  intros [Ha Hb].
  pose proof (Qfloor_le x) as Hlo.
  assert (Hfa : (a <= Qfloor x)%Z).
  { rewrite <- (Qfloor_Z a). apply Qfloor_resp_le, Ha. }
  assert (Hfb : (Qfloor x <= b)%Z).
  { rewrite Zle_Qle. lra. }
  unfold Py.round_half_even.
  destruct (ltb_spec (x - inject_Z (Qfloor x)) (1 # 2)) as [H1 | H1];
    [ lia | ].
  assert (Hlt : (Qfloor x < b)%Z) by (rewrite Zlt_Qlt; lra).
  destruct (ltb_spec (1 # 2) (x - inject_Z (Qfloor x))); [ lia | ].
  destruct (Z.even (Qfloor x)); lia.
Qed.

(** [round(_, 4)] of a rate: within half of a ten-thousandth, and within
    the same bounds when these have at most four decimals. *)
Lemma round4_error (x : Q) :
  - (1 # 20000) <= Py.round x 4 - x <= 1 # 20000.
Proof.
  unfold Py.round. change (inject_Z (10 ^ Z.of_nat 4)) with 10000.
  pose proof (round_half_even_error (x * 10000)) as H.
  set (n := inject_Z (Py.round_half_even (x * 10000))) in *.
  unfold Qdiv. change (/ 10000) with (1 # 10000). split; lra.
Qed.


End Pricing.






(** X10 — the interest-rate handler rounds to four decimals.  It always
    answers, and the rate of the answer differs from the rate computed by
    at most 0.00005. *)
Theorem interest_rate_answer_is_within_half_a_unit
  (data : InterestRateInput) (w : World) :
  exists out : InterestRateOutput,
    fst (calculate_interest_rate_endpoint data w) = OK out
    /\ - 0.00005
       <= taxa_juros_anual out
          - calcular_taxa_juros_anual (risco_final_in data) (prazo_meses data)
              (valor_solicitado data)
       <= 0.00005.
Proof.
  eexists. split; [ reflexivity | ]. cbn.
  pose proof (round4_error
                (calcular_taxa_juros_anual (risco_final_in data)
                   (prazo_meses data) (valor_solicitado data))) as H.
  split; lra.
Qed.

(* ================================================================== *)
(** ** Properties of the mocked lookups and their handlers *)

Section RandomDraws.

Lemma randint_range (a b : Z) (w : World) :
  (a <= b)%Z -> (a <= fst (randint a b w) <= b)%Z.
Proof.
  intros H. unfold randint. cbn.
  pose proof (Z.mod_pos_bound (draws w (taken w)) (b - a + 1)). lia.
Qed.

Lemma choice_in (A : Type) (x : A) (xs : list A) (w : World) :
  In (fst (QiTech.choice x xs w)) (x :: xs).
Proof.
  unfold QiTech.choice. cbn [fst].
  set (n := Z.to_nat _).
  destruct (Nat.lt_ge_cases n (List.length (x :: xs))) as [H | H].
  - apply nth_In, H.
  - rewrite (nth_overflow _ _ H). left. reflexivity.
Qed.

Lemma random_range (w : World) : 0 <= fst (QiTech.random w) < 1.
Proof.
  unfold QiTech.random. cbn [fst].
  pose proof (Z.mod_pos_bound (draws w (taken w)) (2 ^ 53) eq_refl) as [Hlo Hhi].
  rewrite Zle_Qle in Hlo. rewrite Zlt_Qlt in Hhi.
  set (d := inject_Z (draws w (taken w) mod 2 ^ 53)) in *.
  change (inject_Z 0) with 0 in Hlo.
  assert (P : 0 < inject_Z (2 ^ 53)) by reflexivity.
  split.
  - apply Qle_shift_div_l; [ exact P | lra ].
  - apply Qlt_shift_div_r; [ exact P | lra ].
Qed.

(** [round(_, 3)] keeps a value between bounds that have at most three
    decimals. *)
Lemma round3_between (a b : Z) (x : Q) :
  inject_Z a * (1 # 1000) <= x <= inject_Z b * (1 # 1000) ->
  inject_Z a * (1 # 1000) <= Py.round x 3 <= inject_Z b * (1 # 1000).
Proof.
  intros H. unfold Py.round. change (inject_Z (10 ^ Z.of_nat 3)) with 1000.
  assert (H' : inject_Z a <= x * 1000 <= inject_Z b) by (split; lra).
  destruct (round_half_even_between H') as [Ha Hb].
  rewrite Zle_Qle in Ha. rewrite Zle_Qle in Hb.
  set (n := inject_Z (Py.round_half_even (x * 1000))) in *.
  unfold Qdiv. change (/ 1000) with (1 # 1000). split; lra.
Qed.

(** The probability drawn by [round(random.uniform(lo, hi), 3)], for
    bounds [lo <= hi] that are [a] and [b] thousandths. *)
Lemma uniform_round3_range (lo hi : Q) (a b : Z) (w : World) :
  lo == inject_Z a * (1 # 1000) -> hi == inject_Z b * (1 # 1000) ->
  lo <= hi ->
  lo <= Py.round (fst (QiTech.uniform lo hi w)) 3 <= hi.
Proof.
  intros Ea Eb L.
  assert (B : inject_Z a * (1 # 1000)
              <= Py.round (fst (QiTech.uniform lo hi w)) 3
              <= inject_Z b * (1 # 1000)).
  { apply round3_between.
    unfold QiTech.uniform, io_bind, io_ret.
    pose proof (random_range w) as R.
    destruct (QiTech.random w) as [u w']. cbn [fst] in *.
    split; nra. }
  split; lra.
Qed.

End RandomDraws.

Section Lookups.

(** The two random records, draw by draw. *)
Lemma empresa_aleatoria_eq (w : World) :
  let w1 := QiTech.advance w in
  let w2 := QiTech.advance w1 in
  let w3 := QiTech.advance w2 in
  let w4 := QiTech.advance w3 in
  let w5 := QiTech.advance w4 in
  QiTech.empresa_aleatoria w
  = ({| QiTech.e_score := fst (randint 300 900 w);
        QiTech.e_faixa := fst (QiTech.choice "A" ["B"; "C"; "D"] w1)%string;
        QiTech.e_prob_inadimplencia :=
          Py.round (fst (QiTech.uniform 0.05 0.40 w2)) 3;
        QiTech.e_setor :=
          fst (QiTech.choice "Comércio" ["Serviços"; "Indústria"] w3)%string;
        QiTech.e_porte :=
          fst (QiTech.choice "Micro" ["Pequeno"; "Médio"; "Grande"] w4)%string;
        QiTech.e_tempo_atuacao := fst (randint 1 20 w5) |},
     QiTech.advance w5).
Proof. reflexivity. Qed.

Lemma pessoa_aleatoria_eq (w : World) :
  let w1 := QiTech.advance w in
  let w2 := QiTech.advance w1 in
  let w3 := QiTech.advance w2 in
  let w4 := QiTech.advance w3 in
  let w5 := QiTech.advance w4 in
  QiTech.pessoa_aleatoria w
  = ({| QiTech.p_score := fst (randint 200 950 w);
        QiTech.p_faixa := fst (QiTech.choice "A" ["B"; "C"; "D"] w1)%string;
        QiTech.p_prob_inadimplencia :=
          Py.round (fst (QiTech.uniform 0.02 0.50 w2)) 3;
        QiTech.p_idade := fst (randint 18 70 w3);
        QiTech.p_renda_mensal := fst (randint 1500 15000 w4);
        QiTech.p_estado_civil :=
          fst (QiTech.choice "Solteiro" ["Casado"; "Divorciado"; "Viúvo"]
                 w5)%string |},
     QiTech.advance w5).
Proof. reflexivity. Qed.

(** What a lookup answers is the record found or drawn, and it only
    reads the clock after that. *)
Lemma consultar_empresa_eq (cnpj : string) (w : World) :
  let dw := match QiTech.procurar cnpj QiTech.empresas_mock with
            | Some d => (d, w)
            | None => QiTech.empresa_aleatoria w
            end in
  QiTech.consultar_score_qi_tech_empresa cnpj w
  = ({| QiTech.score := QiTech.e_score (fst dw);
        QiTech.faixa_score := QiTech.e_faixa (fst dw);
        QiTech.probabilidade_inadimplencia :=
          QiTech.e_prob_inadimplencia (fst dw);
        QiTech.analise_completa :=
          {| QiTech.documento := cnpj; QiTech.dados := fst dw;
             QiTech.fonte := "Qi Tech API (mockado)";
             QiTech.timestamp := clock (snd dw) |};
        QiTech.data_consulta := clock (snd dw) |},
     snd dw).
Proof.
  cbv zeta. unfold QiTech.consultar_score_qi_tech_empresa.
  destruct (QiTech.procurar cnpj QiTech.empresas_mock); [ reflexivity | ].
  rewrite empresa_aleatoria_eq. reflexivity.
Qed.

Lemma consultar_pessoa_eq (cpf : string) (w : World) :
  let dw := match QiTech.procurar cpf QiTech.pessoas_mock with
            | Some d => (d, w)
            | None => QiTech.pessoa_aleatoria w
            end in
  QiTech.consultar_score_qi_tech_pessoa cpf w
  = ({| QiTech.score := QiTech.p_score (fst dw);
        QiTech.faixa_score := QiTech.p_faixa (fst dw);
        QiTech.probabilidade_inadimplencia :=
          QiTech.p_prob_inadimplencia (fst dw);
        QiTech.analise_completa :=
          {| QiTech.documento := cpf; QiTech.dados := fst dw;
             QiTech.fonte := "Qi Tech API (mockado)";
             QiTech.timestamp := clock (snd dw) |};
        QiTech.data_consulta := clock (snd dw) |},
     snd dw).
Proof.
  cbv zeta. unfold QiTech.consultar_score_qi_tech_pessoa.
  destruct (QiTech.procurar cpf QiTech.pessoas_mock); [ reflexivity | ].
  rewrite pessoa_aleatoria_eq. reflexivity.
Qed.

(** The entries of the two tables. *)
Lemma empresas_mock_entries (cnpj : string) (d : QiTech.EmpresaData) :
  QiTech.procurar cnpj QiTech.empresas_mock = Some d ->
  In (cnpj, d) QiTech.empresas_mock.
Proof.
  unfold QiTech.empresas_mock. cbn.
  destruct (String.eqb_spec cnpj "12345678000123") as [-> | _];
    [ intros E; injection E as <-; auto | ].
  destruct (String.eqb_spec cnpj "98765432000198") as [-> | _];
    [ intros E; injection E as <-; auto | discriminate ].
Qed.

Lemma pessoas_mock_entries (cpf : string) (d : QiTech.PessoaData) :
  QiTech.procurar cpf QiTech.pessoas_mock = Some d ->
  In (cpf, d) QiTech.pessoas_mock.
Proof.
  unfold QiTech.pessoas_mock. cbn.
  destruct (String.eqb_spec cpf "12345678901") as [-> | _];
    [ intros E; injection E as <-; auto | ].
  destruct (String.eqb_spec cpf "98765432109") as [-> | _];
    [ intros E; injection E as <-; auto | discriminate ].
Qed.

End Lookups.

(** X11 — the mocked bureau always answers in range.  Whatever the
    document and the state of the random generator, the company lookup
    gives a score between 300 and 900, a band among A, B, C, D and a
    default probability between 0.05 and 0.40; the person lookup gives a
    score between 200 and 950, a band among the same four and a
    probability between 0.02 and 0.50.  Either score is thus a bureau
    score of the declared range 0..1000. *)
Theorem mock_bureau_answers_are_in_range (cnpj cpf : string) (w : World) :
  let e := fst (QiTech.consultar_score_qi_tech_empresa cnpj w) in
  let p := fst (QiTech.consultar_score_qi_tech_pessoa cpf w) in
  (300 <= QiTech.score e <= 900)%Z
  /\ In (QiTech.faixa_score e) ["A"; "B"; "C"; "D"]%string
  /\ 0.05 <= QiTech.probabilidade_inadimplencia e <= 0.40
  /\ (200 <= QiTech.score p <= 950)%Z
  /\ In (QiTech.faixa_score p) ["A"; "B"; "C"; "D"]%string
  /\ 0.02 <= QiTech.probabilidade_inadimplencia p <= 0.50.
Proof.
  cbv zeta. rewrite consultar_empresa_eq, consultar_pessoa_eq. cbn [fst].
  cbn [QiTech.score QiTech.faixa_score QiTech.probabilidade_inadimplencia].
  assert (E : let d := fst match QiTech.procurar cnpj QiTech.empresas_mock with
                           | Some d => (d, w)
                           | None => QiTech.empresa_aleatoria w
                           end in
              (300 <= QiTech.e_score d <= 900)%Z
              /\ In (QiTech.e_faixa d) ["A"; "B"; "C"; "D"]%string
              /\ 0.05 <= QiTech.e_prob_inadimplencia d <= 0.40).
  { destruct (QiTech.procurar cnpj QiTech.empresas_mock) as [d | ] eqn:P.
    - apply empresas_mock_entries in P.
      destruct P as [P | [P | []]]; injection P as _ <-; cbn;
        (split; [ lia | split; [ tauto | split; lra ] ]).
    - rewrite empresa_aleatoria_eq. cbn [fst QiTech.e_score QiTech.e_faixa
                                            QiTech.e_prob_inadimplencia].
      split; [ apply randint_range; lia | ].
      split; [ apply choice_in | ].
      apply (@uniform_round3_range 0.05 0.40 50 400);
        [ reflexivity | reflexivity | vm_compute; discriminate ]. }
  assert (P : let d := fst match QiTech.procurar cpf QiTech.pessoas_mock with
                           | Some d => (d, w)
                           | None => QiTech.pessoa_aleatoria w
                           end in
              (200 <= QiTech.p_score d <= 950)%Z
              /\ In (QiTech.p_faixa d) ["A"; "B"; "C"; "D"]%string
              /\ 0.02 <= QiTech.p_prob_inadimplencia d <= 0.50).
  { destruct (QiTech.procurar cpf QiTech.pessoas_mock) as [d | ] eqn:P.
    - apply pessoas_mock_entries in P.
      destruct P as [P | [P | []]]; injection P as _ <-; cbn;
        (split; [ lia | split; [ tauto | split; lra ] ]).
    - rewrite pessoa_aleatoria_eq. cbn [fst QiTech.p_score QiTech.p_faixa
                                           QiTech.p_prob_inadimplencia].
      split; [ apply randint_range; lia | ].
      split; [ apply choice_in | ].
      apply (@uniform_round3_range 0.02 0.50 20 500);
        [ reflexivity | reflexivity | vm_compute; discriminate ]. }
  cbv zeta in E, P. tauto.
Qed.

(** X12 — known documents take no random draw.  A document of the
    table is answered with its entry and leaves the random generator as
    it was; any other document is answered from exactly six draws.  The
    clock is only read. *)
Theorem known_documents_take_no_draw (cnpj cpf : string) (w : World) :
  let re := QiTech.consultar_score_qi_tech_empresa cnpj w in
  let rp := QiTech.consultar_score_qi_tech_pessoa cpf w in
  match QiTech.procurar cnpj QiTech.empresas_mock with
  | Some d =>
      QiTech.dados (QiTech.analise_completa (fst re)) = d
      /\ QiTech.score (fst re) = QiTech.e_score d
      /\ snd re = w
  | None => taken (snd re) = (taken w + 6)%nat
  end
  /\ match QiTech.procurar cpf QiTech.pessoas_mock with
     | Some d =>
         QiTech.dados (QiTech.analise_completa (fst rp)) = d
         /\ QiTech.score (fst rp) = QiTech.p_score d
         /\ snd rp = w
     | None => taken (snd rp) = (taken w + 6)%nat
     end
  /\ draws (snd re) = draws w /\ clock (snd re) = clock w
  /\ draws (snd rp) = draws w /\ clock (snd rp) = clock w.
Proof.
  cbv zeta. rewrite consultar_empresa_eq, consultar_pessoa_eq.
  destruct (QiTech.procurar cnpj QiTech.empresas_mock);
    destruct (QiTech.procurar cpf QiTech.pessoas_mock);
    rewrite ?empresa_aleatoria_eq, ?pessoa_aleatoria_eq; cbn;
    repeat split; lia.
Qed.

(** X13 — the band drawn is unrelated to the score drawn.  For a
    document that is not in the table, every score between 300 and 900
    comes with every band: for each such pair there is a state of the
    random generator in which the company lookup answers it. *)
Theorem random_band_is_unrelated_to_the_score
  (cnpj : string) (n : Z) (band : string) :
  QiTech.procurar cnpj QiTech.empresas_mock = None ->
  (300 <= n <= 900)%Z ->
  In band ["A"; "B"; "C"; "D"]%string ->
  exists w : World,
    let r := fst (QiTech.consultar_score_qi_tech_empresa cnpj w) in
    QiTech.score r = n /\ QiTech.faixa_score r = band.
Proof.
  intros Hk Hn Hb.
  assert (Hi : exists i : Z,
             (0 <= i < 4)%Z
             /\ nth (Z.to_nat i) ["A"; "B"; "C"; "D"]%string "A"%string = band).
  { destruct Hb as [<- | [<- | [<- | [<- | []]]]];
      [ exists 0%Z | exists 1%Z | exists 2%Z | exists 3%Z ];
      split; try lia; reflexivity. }
  destruct Hi as (i & Bi & Ei).
  exists {| draws := fun k => match k with O => (n - 300)%Z | _ => i end;
            taken := 0; clock := 0 |}.
  cbv zeta. rewrite consultar_empresa_eq, Hk, empresa_aleatoria_eq.
  cbn [fst QiTech.score QiTech.faixa_score QiTech.e_score QiTech.e_faixa].
  split.
  - unfold randint. cbn [fst draws taken]. rewrite Z.mod_small; lia.
  - unfold QiTech.choice, QiTech.advance.
    cbn [fst draws taken List.length]. rewrite Z.mod_small by lia. exact Ei.
Qed.

(** A document that is not in the table, the best score and the worst
    band. *)
Lemma random_band_witness :
  exists w : World,
    let r := fst (QiTech.consultar_score_qi_tech_empresa "00000000000000" w) in
    QiTech.score r = 900%Z /\ QiTech.faixa_score r = "D"%string.
Proof.
  apply (@random_band_is_unrelated_to_the_score "00000000000000" 900 "D");
    [ reflexivity | lia | cbn; tauto ].
Defined.



(** X15 — the demonstration is the same in every state of the world.
    Its request is fixed and its CNPJ is in the table, so it draws
    nothing: the internal score is 755 with the grade B, the Qi Tech
    score 750 with the band B, the difference 5, and the two are found
    similar; only the time stamp of the lookup is read from the clock. *)
Theorem demonstration_is_fixed (w : World) :
  exists d : QiTech.Demo,
    QiTech.demo_qi_tech_integration w = (Py.ret d, w)
    /\ QiTech.ai_score (QiTech.analise_interna d) == 755
    /\ QiTech.ai_classificacao (QiTech.analise_interna d) = B
    /\ QiTech.qe_score (QiTech.qi_tech_empresa d) = 750%Z
    /\ QiTech.qe_faixa (QiTech.qi_tech_empresa d) = "B"%string
    /\ QiTech.diferenca_score (QiTech.comparacao d) == 5
    /\ QiTech.c_recomendacao (QiTech.comparacao d)
       = "Scores similares - usar média ponderada"%string
    /\ QiTech.timestamp (QiTech.dados_completos_qi_tech d) = clock w.
Proof.
  eexists. split; [ vm_compute; reflexivity | ].
  repeat split.
Qed.

(* ================================================================== *)
(** ** Properties of the learned model *)

Section ModelSelection.

Lemma get_default (V : Type) (d : list (string * V)) (key : string) (v : V) :
  ~ In key (map fst d) -> Modelo.get d key v = v.
Proof.
  induction d as [ | [k x] d IH]; cbn; [ reflexivity | ].
  intros H. destruct (String.eqb_spec key k) as [-> | _].
  - exfalso. apply H. left. reflexivity.
  - apply IH. intros Hin. apply H. right. exact Hin.
Qed.



End ModelSelection.

(** X16 — an unknown model type is trained as a linear regression.
    [_create_model] looks the type up among its five names and falls back
    on [LinearRegression()]: a type that is none of the five gives the
    same estimator as ["linear"], without any error. *)
Theorem unknown_model_type_is_linear (t : string) :
  ~ In t ["linear"; "ridge"; "lasso"; "random_forest";
          "gradient_boosting"]%string ->
  Modelo._create_model t = Modelo.LinearRegression
  /\ Modelo._create_model t = Modelo._create_model "linear".
Proof.
  intros H. unfold Modelo._create_model.
  rewrite (get_default Modelo.models t Modelo.LinearRegression H).
  split; reflexivity.
Qed.

(** A misspelt type. *)
Lemma unknown_model_type_witness :
  Modelo._create_model "random forest" = Modelo.LinearRegression.
Proof.
  apply (@unknown_model_type_is_linear "random forest").
  cbn. intros [H | [H | [H | [H | [H | []]]]]]; discriminate.
Defined.


(** Three trained models and a failure: the first of the two best is
    named. *)
Lemma best_model_example :
  Modelo.best_model
    [("linear", Modelo.Trained 0.8); ("ridge", Modelo.Trained 0.9);
     ("lasso", Modelo.Failed "erro");
     ("random_forest", Modelo.Trained 0.9)]%string
  = (Some "ridge"%string, Some 0.9).
Proof. reflexivity. Qed.

Section FrameFacts.

Variable Series : Type.
Variable div : Series -> Series -> Series.
Variable broadcast : Modelo.DataFrame Series -> Q -> Series.

Lemma has_column_setitem (df : Modelo.DataFrame Series) (c k : string) (v : Series) :
  Modelo.has_column c (Modelo.setitem df k v)
  = (Modelo.has_column c df || String.eqb c k)%bool.
Proof.
  unfold Modelo.has_column, Modelo.columns.
  induction df as [ | [k' x] df IH]; cbn.
  - now rewrite orb_false_r.
  - destruct (String.eqb_spec k k') as [-> | Hk]; cbn.
    + destruct (String.eqb c k'); cbn; [ reflexivity | ].
      now rewrite orb_false_r.
    + rewrite IH. now rewrite orb_assoc.
Qed.

Lemma getitem_has_column (df : Modelo.DataFrame Series) (c : string) :
  Modelo.has_column c df = true -> exists v, Modelo.getitem df c = inr v.
Proof.
  unfold Modelo.has_column, Modelo.columns.
  induction df as [ | [k x] df IH]; cbn; [ discriminate | ].
  destruct (String.eqb c k); cbn; [ eauto | exact IH ].
Qed.

Lemma getitem_setitem (df : Modelo.DataFrame Series) (k : string) (v : Series) :
  Modelo.getitem (Modelo.setitem df k v) k = inr v.
Proof.
  induction df as [ | [k' x] df IH]; cbn.
  - now rewrite String.eqb_refl.
  - destruct (String.eqb k k') eqn:E; cbn; rewrite E; [ reflexivity | exact IH ].
Qed.

Lemma select_present (df : Modelo.DataFrame Series) (cols : list string) :
  (forall c, In c cols -> Modelo.has_column c df = true) ->
  exists out : Modelo.DataFrame Series,
    Modelo.select df cols = inr out
    /\ Modelo.columns out = cols
    /\ (forall c, In c cols -> Modelo.getitem out c = Modelo.getitem df c).
Proof.
  induction cols as [ | c cols IH]; intros H; cbn.
  - exists []. repeat split. intros c [].
  - destruct (getitem_has_column df c (H c (or_introl eq_refl))) as [v Hv].
    destruct IH as (out & Ho & Hc & Hg);
      [ intros c' Hc'; apply H; right; exact Hc' | ].
    rewrite Hv, Ho. exists ((c, v) :: out). split; [ reflexivity | ].
    split; [ cbn; f_equal; exact Hc | ].
    intros c' [<- | Hin]; cbn.
    + now rewrite String.eqb_refl.
    + destruct (String.eqb_spec c' c) as [-> | _]; [ now symmetry | ].
      apply Hg, Hin.
Qed.

(** The frame [prepare_features] works on: the input with the column of
    the concentration set. *)
Lemma prepare_features_frame (fc : list string) (df : Modelo.DataFrame Series) :
  let v := match Modelo.getitem df "valor_maior_cliente",
                 Modelo.getitem df "faturamento_total_periodo" with
           | inr maior, inr total =>
               if (Modelo.has_column "faturamento_total_periodo" df
                   && Modelo.has_column "valor_maior_cliente" df)%bool
               then div maior total else broadcast df 0.3
           | _, _ => broadcast df 0.3
           end in
  let df_processed := Modelo.setitem df "concentracao_clientes" v in
  let available := filter (fun col => Modelo.has_column col df_processed) fc in
  Modelo.prepare_features div broadcast fc df
  = match available with
    | [] => inl (Modelo.ValueError
                   "Nenhuma característica disponível para treinamento")
    | _ => Modelo.select df_processed available
    end.
Proof.
  cbv zeta. unfold Modelo.prepare_features.
  destruct (Modelo.has_column "faturamento_total_periodo" df) eqn:Ht;
    destruct (Modelo.has_column "valor_maior_cliente" df) eqn:Hm; cbn [andb].
  - destruct (getitem_has_column df _ Ht) as [t ->].
    destruct (getitem_has_column df _ Hm) as [m ->]. reflexivity.
  - destruct (Modelo.getitem df "valor_maior_cliente");
      destruct (Modelo.getitem df "faturamento_total_periodo"); reflexivity.
  - destruct (Modelo.getitem df "valor_maior_cliente");
      destruct (Modelo.getitem df "faturamento_total_periodo"); reflexivity.
  - destruct (Modelo.getitem df "valor_maior_cliente");
      destruct (Modelo.getitem df "faturamento_total_periodo"); reflexivity.
Qed.

Lemma getitem_inr_has_column (df : Modelo.DataFrame Series) (c : string)
  (v : Series) :
  Modelo.getitem df c = inr v -> Modelo.has_column c df = true.
Proof.
  unfold Modelo.has_column, Modelo.columns.
  induction df as [ | [k x] df IH]; cbn; [ discriminate | ].
  destruct (String.eqb c k); cbn; [ reflexivity | exact IH ].
Qed.

(** What [prepare_features] returns when the concentration is a feature
    column. *)
Lemma prepare_features_result (fc : list string)
  (df : Modelo.DataFrame Series) :
  In "concentracao_clientes"%string fc ->
  exists out : Modelo.DataFrame Series,
    Modelo.prepare_features div broadcast fc df = inr out
    /\ Modelo.columns out
       = filter (fun c => (Modelo.has_column c df
                           || String.eqb c "concentracao_clientes")%bool) fc
    /\ In "concentracao_clientes"%string (Modelo.columns out)
    /\ Modelo.getitem out "concentracao_clientes"
       = inr match Modelo.getitem df "valor_maior_cliente",
                   Modelo.getitem df "faturamento_total_periodo" with
             | inr maior, inr total => div maior total
             | _, _ => broadcast df 0.3
             end.
Proof.
  intros Hin.
  pose proof (prepare_features_frame fc df) as E.
  cbv zeta in E.
  set (v := match Modelo.getitem df "valor_maior_cliente" with
            | inl _ => _ | inr _ => _ end) in E.
  set (df' := Modelo.setitem df "concentracao_clientes" v) in E.
  set (available := filter _ fc) in E.
  assert (Hc : In "concentracao_clientes"%string available).
  { apply filter_In. split; [ exact Hin | ].
    unfold df'. rewrite has_column_setitem, String.eqb_refl.
    apply orb_true_r. }
  destruct (@select_present df' available) as (out & Ho & Hcols & Hg).
  { intros c Hc'. apply filter_In in Hc'. apply Hc'. }
  exists out. split.
  - rewrite E. destruct available; [ destruct Hc | exact Ho ].
  - split.
    + rewrite Hcols. unfold available. apply filter_ext.
      intros c. unfold df'. apply has_column_setitem.
    + split; [ rewrite Hcols; exact Hc | ].
      rewrite (Hg _ Hc). unfold df'. rewrite getitem_setitem. f_equal.
      unfold v.
      destruct (Modelo.getitem df "valor_maior_cliente") as [e | m] eqn:Em;
        [ reflexivity | ].
      destruct (Modelo.getitem df "faturamento_total_periodo") as [e | t] eqn:Et;
        [ reflexivity | ].
      now rewrite (getitem_inr_has_column _ _ Em),
        (getitem_inr_has_column _ _ Et).
Qed.

End FrameFacts.

Section Rounding2.



End Rounding2.

(** X18 — [prepare_features] always has the concentration column.  When
    the list of feature columns names ["concentracao_clientes"], as the
    list set by the constructor does, the function never raises: it
    returns the feature columns that the frame has, in the order of the
    list, the concentration among them; a column of the frame that is not
    a feature column is dropped.  The concentration returned is the
    quotient of the two columns when the frame has both and the constant
    0.3 otherwise, whatever column of that name the frame came with. *)
Theorem prepare_features_always_has_the_concentration
  (Series : Type) (div : Series -> Series -> Series)
  (broadcast : Modelo.DataFrame Series -> Q -> Series)
  (fc : list string) (df : Modelo.DataFrame Series) :
  In "concentracao_clientes"%string fc ->
  exists out : Modelo.DataFrame Series,
    Modelo.prepare_features div broadcast fc df = inr out
    /\ Modelo.columns out
       = filter (fun c => (Modelo.has_column c df
                           || String.eqb c "concentracao_clientes")%bool) fc
    /\ In "concentracao_clientes"%string (Modelo.columns out)
    /\ Modelo.getitem out "concentracao_clientes"
       = inr match Modelo.getitem df "valor_maior_cliente",
                   Modelo.getitem df "faturamento_total_periodo" with
             | inr maior, inr total => div maior total
             | _, _ => broadcast df 0.3
             end.
Proof. apply prepare_features_result. Qed.

(** A frame of one row with the two columns of the concentration, a
    credit score, which is no feature column, and a concentration of its
    own: the features are the largest client and the quotient. *)
Lemma prepare_features_witness :
  exists out : Modelo.DataFrame Q,
    Modelo.prepare_features Qdiv (fun _ q => q) Modelo.feature_columns
      [("cpf_score", 750); ("valor_maior_cliente", 80000);
       ("concentracao_clientes", 1); ("faturamento_total_periodo", 300000)]%string
    = inr out
    /\ Modelo.columns out
       = ["valor_maior_cliente"; "concentracao_clientes"]%string
    /\ Modelo.getitem out "concentracao_clientes" = inr (80000 / 300000).
Proof.
  destruct (@prepare_features_always_has_the_concentration Q Qdiv
              (fun _ q => q) Modelo.feature_columns
              [("cpf_score", 750); ("valor_maior_cliente", 80000);
               ("concentracao_clientes", 1);
               ("faturamento_total_periodo", 300000)]%string)
    as (out & Ho & Hc & _ & Hg).
  { cbn. tauto. }
  exists out. split; [ exact Ho | ]. split; [ exact Hc | exact Hg ].
Defined.

(** X19 — [prepare_features] raises only when no feature is left.  If
    the list of feature columns names neither a column of the frame nor
    ["concentracao_clientes"], the function raises its [ValueError]. *)
Theorem prepare_features_raises_without_features
  (Series : Type) (div : Series -> Series -> Series)
  (broadcast : Modelo.DataFrame Series -> Q -> Series)
  (fc : list string) (df : Modelo.DataFrame Series) :
  (forall c, In c fc ->
             Modelo.has_column c df = false
             /\ c <> "concentracao_clientes"%string) ->
  Modelo.prepare_features div broadcast fc df
  = inl (Modelo.ValueError
           "Nenhuma característica disponível para treinamento").
Proof.
  intros H.
  pose proof (prepare_features_frame div broadcast fc df) as E.
  cbv zeta in E. rewrite E.
  set (df' := Modelo.setitem df "concentracao_clientes" _).
  assert (Hnil : filter (fun col => Modelo.has_column col df') fc = []).
  { clear E. induction fc as [ | c fc IH]; [ reflexivity | ]. cbn.
    destruct (H c (or_introl eq_refl)) as [Hc Hn].
    unfold df' at 1. rewrite has_column_setitem, Hc.
    destruct (String.eqb_spec c "concentracao_clientes");
      [ contradiction | ].
    cbn. apply IH. intros c' Hc'. apply H. right. exact Hc'. }
  now rewrite Hnil.
Qed.

(** Feature columns loaded from a file that names none of the frame. *)
Lemma prepare_features_raises_witness :
  Modelo.prepare_features Qdiv (fun _ q => q) ["receita"; "lucro"]%string
    [("valor_maior_cliente", 80000); ("faturamento_total_periodo", 300000)]%string
  = inl (Modelo.ValueError
           "Nenhuma característica disponível para treinamento").
Proof.
  apply (@prepare_features_raises_without_features Q Qdiv (fun _ q => q)).
  cbn. intros c [<- | [<- | []]]; split; (reflexivity || discriminate).
Defined.



